(** * Authentication and RBAC core of admin-dash: a shallow embedding

    The development follows the Python sources under [backend/app]:

    - [core/security.py]            password verification and JWT helpers
    - [services/permission_service.py]  permission resolution
    - [services/mfa_service.py]     TOTP and backup codes
    - [api/v1/auth.py], [api/v1/mfa.py]   the endpoints that compose them

    Python exceptions are modelled by the result type [py_result]; the
    relational store by the record [Database], threaded explicitly through
    the operations that commit.  Third-party libraries (bcrypt, pyotp,
    hashlib, base64, python-jose) are not part of the repository: the
    first four, and Python's [int()] on a string, are taken as the
    interface [Externals]; python-jose's [jwt.encode]/[jwt.decode] are
    modelled in module [Jose]. *)

From Stdlib Require Import ZArith Lia Ascii.
From stdpp Require Import base option list strings pretty gmap fin_maps.

Open Scope string_scope.
Open Scope Z_scope.

(* ===================================================================== *)
(** * Python exceptions and results *)
(* ===================================================================== *)

(** The exceptions the modelled code raises or lets through.
    [ExpiredSignatureError] and [JWTClaimsError] are subclasses of
    [JWTError] in python-jose.  [RequestValidationError] is what FastAPI
    raises, and answers with status 422, when a request body does not fit
    its schema; the handler is then not run. *)
Inductive exn : Type :=
  | HTTPException (status_code : Z) (detail : string)
  | JWTError
  | ExpiredSignatureError
  | JWTClaimsError
  | ValueError (msg : string)
  | LibraryError (msg : string)
  | RequestValidationError.

Inductive py_result (A : Type) : Type :=
  | Return (a : A)
  | Raise (e : exn).
Arguments Return {A} a.
Arguments Raise {A} e.

(** Sequencing: an exception raised by the first computation skips the
    rest.  The instances give the [x ← m; k] notation. *)
#[global] Instance py_bind : MBind py_result := fun A B k m =>
  match m with
  | Return a => k a
  | Raise e => Raise e
  end.

#[global] Instance py_ret : MRet py_result := fun A a => Return a.

(** [except JWTError] catches the class and its subclasses. *)
Definition is_JWTError (e : exn) : bool :=
  match e with
  | JWTError | ExpiredSignatureError | JWTClaimsError => true
  | _ => false
  end.

Definition HTTP_400_BAD_REQUEST : Z := 400.
Definition HTTP_401_UNAUTHORIZED : Z := 401.
Definition HTTP_403_FORBIDDEN : Z := 403.

(* ===================================================================== *)
(** * Strings as Python uses them here *)
(* ===================================================================== *)

(** [c in s] for a one-character needle. *)
Fixpoint contains (c : Ascii.ascii) (s : string) : bool :=
  match s with
  | EmptyString => false
  | String a r => if Ascii.eqb a c then true else contains c r
  end.

(** [s.split(c)[0]]: the part of [s] before the first [c], all of [s] when
    [c] does not occur. *)
Fixpoint split_head (c : Ascii.ascii) (s : string) : string :=
  match s with
  | EmptyString => EmptyString
  | String a r => if Ascii.eqb a c then EmptyString else String a (split_head c r)
  end.

(* ===================================================================== *)
(** * Data model ([models/user.py], [models/role.py]) *)
(* ===================================================================== *)

Record Permission : Type := {
  perm_id : Z;
  perm_name : string;
  perm_category : string;
  perm_action : string
}.

Record Role : Type := {
  role_pk : Z;
  role_name : string;
  role_display_name : string;
  is_system_role : bool;
  role_permissions : list Permission
}.

(** [mfa_backup_codes] is a text column holding [json.dumps] of the list of
    hashes, or NULL; it is kept as the list it encodes.  Timestamps are
    microseconds since the epoch. *)
Record User : Type := {
  id : string;
  email : string;
  hashed_password : string;
  is_active : bool;
  is_superuser : bool;
  role_id : option Z;
  mfa_enabled : bool;
  mfa_secret : option string;
  mfa_backup_codes : option (list string);
  email_verified : bool;
  verification_token : option string;
  verification_token_expires : option Z;
  reset_token : option string;
  reset_token_expires : option Z
}.

Record Database : Type := {
  users : list User;
  roles : list Role
}.

(** [db.query(User).filter(User.email == e).first()] *)
Definition query_user_by_email (db : Database) (e : string) : option User :=
  List.find (fun u => String.eqb (email u) e) (users db).

(** [db.query(User).filter(User.id == i).first()] *)
Definition query_user_by_id (db : Database) (i : string) : option User :=
  List.find (fun u => String.eqb (id u) i) (users db).

(** [db.query(Role).filter(Role.id == r).first()] *)
Definition query_role_by_id (db : Database) (r : Z) : option Role :=
  List.find (fun ro => Z.eqb (role_pk ro) r) (roles db).

(** The ORM relationship [user.role]: the role row the foreign key
    [role_id] points to, [None] when the key is NULL. *)
Definition user_role (db : Database) (user : User) : option Role :=
  match role_id user with
  | Some r => query_role_by_id db r
  | None => None
  end.

(** Writing a mutated user object back on [db.commit()]: the row with the
    same primary key is replaced. *)
Fixpoint replace_user (us : list User) (u : User) : list User :=
  match us with
  | [] => []
  | v :: rest =>
      if String.eqb (id v) (id u) then u :: rest else v :: replace_user rest u
  end.

Definition commit (db : Database) (u : User) : Database :=
  {| users := replace_user (users db) u; roles := roles db |}.

(* ===================================================================== *)
(** * Permission service ([services/permission_service.py]) *)
(* ===================================================================== *)

Module PermissionService.

Definition get_user_permissions (db : Database) (user : User) : list string :=
  match user_role db user with
  | None => []
  | Some role => perm_name <$> role_permissions role
  end.

Definition user_has_permission (db : Database) (user : User) (permission : string) : bool :=
  let permissions := get_user_permissions db user in
  if bool_decide ("system.*" ∈ permissions) then true
  else if bool_decide (permission ∈ permissions) then true
  else if contains "."%char permission then
    let category := split_head "."%char permission in
    if bool_decide (category +:+ ".*" ∈ permissions) then true else false
  else false.

End PermissionService.

(* ===================================================================== *)
(** * Third-party libraries taken as an interface *)
(* ===================================================================== *)

(** What the program asks of bcrypt, pyotp, hashlib, base64 and the mail
    transport.  A call that can raise returns a [py_result].

    - [bcrypt_checkpw pw h]: [bcrypt.checkpw(pw.encode(), h.encode())]
    - [bcrypt_salt_ok h]: whether bcrypt can read a version, a cost and a
      salt off the front of [h]; when it cannot, the library raises
      [ValueError("Invalid salt")] ([bcrypt_invalid_salt])
    - [totp_verify secret code window now]:
      [pyotp.TOTP(secret).verify(code, valid_window=window)] at time [now]
    - [sha256_hexdigest s]: [hashlib.sha256(s.encode()).hexdigest()]
    - [b64decode s]: [base64.b64decode(s.encode()).decode()]
    - [send_verification_email], [send_password_reset_email]: the two
      [EmailService] senders, which deliver over SMTP or log
    - [int_of_str s]: Python's built-in [int(s)] on a string, [None] when
      it raises [ValueError]. *)
Class Externals : Type := {
  bcrypt_checkpw : string -> string -> py_result bool;
  bcrypt_salt_ok : string -> bool;
  bcrypt_invalid_salt : forall pw h,
    bcrypt_salt_ok h = false -> bcrypt_checkpw pw h = Raise (ValueError "Invalid salt");
  totp_verify : string -> string -> Z -> Z -> py_result bool;
  sha256_hexdigest : string -> string;
  b64decode : string -> py_result string;
  send_verification_email : string -> string -> py_result unit;
  send_password_reset_email : string -> string -> py_result unit;
  int_of_str : string -> option Z
}.

(* ===================================================================== *)
(** * Claims and tokens *)
(* ===================================================================== *)

(** The values a claim can hold once serialised: JSON scalars and arrays.
    The only datetimes the program puts in a claim set are [exp] and [iat],
    which [jwt.encode] stores as whole seconds. *)
#[warnings="-register-all"] Inductive jvalue : Type :=
  | JNull
  | JBool (b : bool)
  | JInt (n : Z)
  | JStr (s : string)
  | JList (l : list jvalue).

(** A claim set is a Python [dict] with string keys. *)
Abbreviation claims := (gmap string jvalue).

(** Python truthiness of a claim value, as in [if not user_id:]. *)
Definition truthy (v : jvalue) : bool :=
  match v with
  | JNull => false
  | JBool b => b
  | JInt n => negb (n =? 0)
  | JStr s => negb (String.eqb s "")
  | JList l => match l with [] => false | _ => true end
  end.

(** The token strings a caller can submit: either not a JWS compact
    serialisation at all, or a payload under a header algorithm carrying
    the MAC of some key. *)
Inductive token : Type :=
  | Malformed (s : string)
  | Jwt (alg : string) (payload : claims) (key : string).

Definition token_claims (t : token) : claims :=
  match t with
  | Malformed _ => ∅
  | Jwt _ payload _ => payload
  end.

(** [calendar.timegm(dt.utctimetuple())]: a datetime (microseconds since
    the epoch) as whole seconds, the sub-second part dropped. *)
Definition timegm (t : Z) : Z := t / 1000000.

Definition timedelta_minutes (m : Z) : Z := m * 60 * 1000000.
Definition timedelta_hours (h : Z) : Z := h * 3600 * 1000000.
Definition timedelta_days (d : Z) : Z := d * 86400 * 1000000.

(** [datetime.min] and [datetime.max], 0001-01-01T00:00:00 and
    9999-12-31T23:59:59.999999, in microseconds since the epoch.  Every
    reading of the clock lies between them, and [datetime + timedelta]
    raises [OverflowError] when the sum does not. *)
Definition datetime_min : Z := -62135596800000000.
Definition datetime_max : Z := 253402300799999999.

Definition in_datetime_range (t : Z) : bool :=
  (datetime_min <=? t) && (t <=? datetime_max).

(** ** python-jose, as [core/security.py] calls it

    [jwt.decode(token, key, algorithms=[alg])] with no audience, issuer,
    subject or access token and the default options: the signature is
    checked first, then the registered claims.  The expiry check is the
    library's [if exp < now: raise ExpiredSignatureError], both sides in
    whole seconds.  The library reads [iat], [nbf] and [exp] through
    [int(claims[name])] inside [try: ... except ValueError: raise
    JWTClaimsError]: a boolean or a numeric string is converted, a string
    that is no numeral is rejected, and the [TypeError] that [int()] raises
    on [None] or a list is not caught by the library. *)
Module Jose.

Definition encode (c : claims) (key : string) (algorithm : string) : token :=
  Jwt algorithm c key.

(** A claim value that is a number as it stands: an [int], or a [bool],
    which Python counts as one. *)
Definition as_int (v : jvalue) : option Z :=
  match v with
  | JInt n => Some n
  | JBool b => Some (if b then 1 else 0)
  | _ => None
  end.

(** Python's [int(v)] on a claim value. *)
Inductive int_conversion : Type :=
  | IntOk (n : Z)
  | IntValueError
  | IntTypeError.

Definition py_int `{Externals} (v : jvalue) : int_conversion :=
  match v with
  | JInt n => IntOk n
  | JBool b => IntOk (if b then 1 else 0)
  | JStr s =>
      match int_of_str s with
      | Some n => IntOk n
      | None => IntValueError
      end
  | JNull | JList _ => IntTypeError
  end.

(** Whether [int()] raises [TypeError] on the claim, if it is there. *)
Definition int_TypeError `{Externals} (o : option jvalue) : bool :=
  match o with
  | Some v => match py_int v with IntTypeError => true | _ => false end
  | None => false
  end.

(** Whether it does so on one of the three time claims. *)
Definition time_claims_TypeError `{Externals} (c : claims) : bool :=
  int_TypeError (c !! "iat") || int_TypeError (c !! "nbf") || int_TypeError (c !! "exp").

Definition check_int_claim `{Externals} (name : string) (c : claims) (ok : Z -> bool)
    (err : exn) : py_result unit :=
  match c !! name with
  | None => Return tt
  | Some v =>
      match py_int v with
      | IntOk n => if ok n then Return tt else Raise err
      | IntValueError => Raise JWTClaimsError
      | IntTypeError => Raise (LibraryError "TypeError")
      end
  end.

Definition check_str_claim (name : string) (c : claims) : py_result unit :=
  match c !! name with
  | None | Some (JStr _) => Return tt
  | Some _ => Raise JWTClaimsError
  end.

(** A claim that can only be validated against an argument the caller did
    not pass ([aud] without an audience, [at_hash] without an access
    token). *)
Definition check_absent (name : string) (c : claims) : py_result unit :=
  match c !! name with
  | None => Return tt
  | Some _ => Raise JWTClaimsError
  end.

Definition validate_claims `{Externals} (c : claims) (now : Z) : py_result unit :=
  check_int_claim "iat" c (fun _ => true) JWTClaimsError ;;
  check_int_claim "nbf" c (fun nbf => nbf <=? timegm now) JWTClaimsError ;;
  check_int_claim "exp" c (fun exp => negb (exp <? timegm now)) ExpiredSignatureError ;;
  check_absent "aud" c ;;
  check_str_claim "sub" c ;;
  check_str_claim "jti" c ;;
  check_absent "at_hash" c.

(** The checks that look at neither [exp] nor [iat], as one boolean. *)
Definition passes (r : py_result unit) : bool :=
  match r with
  | Return _ => true
  | Raise _ => false
  end.

Definition other_claims_ok `{Externals} (c : claims) (now : Z) : bool :=
  passes (check_int_claim "nbf" c (fun nbf => nbf <=? timegm now) JWTClaimsError)
  && passes (check_absent "aud" c)
  && passes (check_str_claim "sub" c)
  && passes (check_str_claim "jti" c)
  && passes (check_absent "at_hash" c).

Definition decode `{Externals} (t : token) (key : string) (algorithms : list string)
    (now : Z) : py_result claims :=
  match t with
  | Malformed _ => Raise JWTError
  | Jwt alg payload k =>
      if negb (bool_decide (alg ∈ algorithms)) then Raise JWTError
      else if negb (String.eqb k key) then Raise JWTError
      else validate_claims payload now ;; Return payload
  end.

End Jose.

(* ===================================================================== *)
(** * Settings ([core/config.py]) *)
(* ===================================================================== *)

(** The four settings the token helpers read.  [ALGORITHM] is taken to be
    one of the library's HMAC algorithms ("HS256" by default) and
    [SECRET_KEY] a secret it accepts, so that signing succeeds. *)
Record Settings : Type := {
  SECRET_KEY : string;
  ALGORITHM : string;
  ACCESS_TOKEN_EXPIRE_MINUTES : Z;
  REFRESH_TOKEN_EXPIRE_DAYS : Z
}.

(* ===================================================================== *)
(** * Security utilities ([core/security.py]) *)
(* ===================================================================== *)

(** The body is the library call, with nothing around it. *)
Definition verify_password `{Externals} (plain_password hashed_password : string)
  : py_result bool :=
  bcrypt_checkpw plain_password hashed_password.

(** [expires_delta] is [None] or a timedelta in microseconds; a zero
    timedelta is falsy and takes the default branch.  [now] is the reading
    of [datetime.utcnow()] during the call: the source reads the clock
    once for [exp] and once more for [iat], and the two readings are taken
    as one instant here.  The definition gives the token of a call that
    returns; [create_access_token_at] below is the call with its two
    readings and with the [OverflowError] of an expiry outside the
    datetime range. *)
Definition create_access_token (settings : Settings) (data : claims)
    (expires_delta : option Z) (now : Z) : token :=
  let to_encode := data in
  let expire :=
    match expires_delta with
    | Some d => if d =? 0
                then now + timedelta_minutes (ACCESS_TOKEN_EXPIRE_MINUTES settings)
                else now + d
    | None => now + timedelta_minutes (ACCESS_TOKEN_EXPIRE_MINUTES settings)
    end in
  let to_encode :=
    <["iat" := JInt (timegm now)]> (<["exp" := JInt (timegm expire)]> to_encode) in
  Jose.encode to_encode (SECRET_KEY settings) (ALGORITHM settings).

(** The call in full: the clock reads [now] when the expiry is computed
    and [now_iat] when [iat] is set, and [datetime + timedelta] raises
    [OverflowError] when the sum is no datetime. *)
Definition create_access_token_at (settings : Settings) (data : claims)
    (expires_delta : option Z) (now now_iat : Z) : py_result token :=
  let to_encode := data in
  let expire :=
    match expires_delta with
    | Some d => if d =? 0
                then now + timedelta_minutes (ACCESS_TOKEN_EXPIRE_MINUTES settings)
                else now + d
    | None => now + timedelta_minutes (ACCESS_TOKEN_EXPIRE_MINUTES settings)
    end in
  if negb (in_datetime_range expire) then Raise (LibraryError "OverflowError")
  else
    let to_encode :=
      <["iat" := JInt (timegm now_iat)]> (<["exp" := JInt (timegm expire)]> to_encode) in
    Return (Jose.encode to_encode (SECRET_KEY settings) (ALGORITHM settings)).

(** The claim set a token minted from [data] at [issued] with a non-zero
    lifetime [ttl] carries. *)
Definition minted (data : claims) (issued ttl : Z) : claims :=
  <["iat" := JInt (timegm issued)]> (<["exp" := JInt (timegm (issued + ttl))]> data).

Definition create_refresh_token (settings : Settings) (data : claims) (now : Z) : token :=
  let expires_delta := timedelta_days (REFRESH_TOKEN_EXPIRE_DAYS settings) in
  create_access_token settings data (Some expires_delta) now.

(** [try: return jwt.decode(...) except JWTError: return None].  What is
    not a [JWTError] goes through. *)
Definition decode_token `{Externals} (settings : Settings) (t : token) (now : Z)
  : py_result (option claims) :=
  match Jose.decode t (SECRET_KEY settings) [ALGORITHM settings] now with
  | Return payload => Return (Some payload)
  | Raise e => if is_JWTError e then Return None else Raise e
  end.

(* ===================================================================== *)
(** * Field updates on a user object *)
(* ===================================================================== *)

Definition set_mfa (u : User) (enabled : bool) (secret : option string)
    (codes : option (list string)) : User :=
  {| id := id u; email := email u; hashed_password := hashed_password u;
     is_active := is_active u; is_superuser := is_superuser u; role_id := role_id u;
     mfa_enabled := enabled; mfa_secret := secret; mfa_backup_codes := codes;
     email_verified := email_verified u;
     verification_token := verification_token u;
     verification_token_expires := verification_token_expires u;
     reset_token := reset_token u; reset_token_expires := reset_token_expires u |}.

Definition set_mfa_backup_codes (u : User) (codes : option (list string)) : User :=
  set_mfa u (mfa_enabled u) (mfa_secret u) codes.

Definition set_verification (u : User) (tok : option string) (expires : option Z) : User :=
  {| id := id u; email := email u; hashed_password := hashed_password u;
     is_active := is_active u; is_superuser := is_superuser u; role_id := role_id u;
     mfa_enabled := mfa_enabled u; mfa_secret := mfa_secret u;
     mfa_backup_codes := mfa_backup_codes u;
     email_verified := email_verified u;
     verification_token := tok; verification_token_expires := expires;
     reset_token := reset_token u; reset_token_expires := reset_token_expires u |}.

Definition set_reset (u : User) (tok : option string) (expires : option Z) : User :=
  {| id := id u; email := email u; hashed_password := hashed_password u;
     is_active := is_active u; is_superuser := is_superuser u; role_id := role_id u;
     mfa_enabled := mfa_enabled u; mfa_secret := mfa_secret u;
     mfa_backup_codes := mfa_backup_codes u;
     email_verified := email_verified u;
     verification_token := verification_token u;
     verification_token_expires := verification_token_expires u;
     reset_token := tok; reset_token_expires := expires |}.

(** Truthiness of a nullable string column, as in [not user.mfa_secret]. *)
Definition str_truthy (o : option string) : bool :=
  match o with
  | None => false
  | Some s => negb (String.eqb s "")
  end.

(* ===================================================================== *)
(** * MFA service ([services/mfa_service.py]) *)
(* ===================================================================== *)

Module MFAService.

(** [try: return TOTP(secret).verify(code, valid_window=window)
     except Exception: return False] *)
Definition verify_totp `{Externals} (secret code : string) (window now : Z) : bool :=
  match totp_verify secret code window now with
  | Return b => b
  | Raise _ => false
  end.

Definition hash_backup_code `{Externals} (code : string) : string :=
  sha256_hexdigest code.

Definition verify_backup_code `{Externals} (code : string) (hashed_codes : list string)
  : bool * option string :=
  let code_hash := hash_backup_code code in
  if bool_decide (code_hash ∈ hashed_codes) then (true, Some code_hash)
  else (false, None).

Definition decrypt_secret `{Externals} (encrypted_secret : string) : py_result string :=
  b64decode encrypted_secret.

(** [l.remove(x)]: drops the first occurrence, [ValueError] when there is
    none. *)
Fixpoint list_remove (x : string) (l : list string) : py_result (list string) :=
  match l with
  | [] => Raise (ValueError "list.remove(x): x not in list")
  | y :: rest =>
      if String.eqb y x then Return rest
      else rest' ← list_remove x rest; Return (y :: rest')
  end.

Definition disable_mfa (db : Database) (user : User) : Database :=
  commit db (set_mfa user false None None).

Definition verify_user_totp `{Externals} (user : User) (code : string) (now : Z)
  : py_result bool :=
  if negb (mfa_enabled user) || negb (str_truthy (mfa_secret user)) then Return false
  else
    secret ← decrypt_secret (default "" (mfa_secret user));
    Return (verify_totp secret code 1 now).

(** The column is NULL or the [json.dumps] text of a list, which is never
    the empty string: it is falsy exactly when NULL. *)
Definition codes_truthy (o : option (list string)) : bool :=
  match o with
  | None => false
  | Some _ => true
  end.

(** Returns the verdict and the store after the commit (the store as it
    was when nothing is consumed). *)
Definition verify_user_backup_code `{Externals} (db : Database) (user : User)
    (code : string) : py_result (bool * Database) :=
  if negb (mfa_enabled user) || negb (codes_truthy (mfa_backup_codes user))
  then Return (false, db)
  else
    let hashed_codes := default [] (mfa_backup_codes user) in
    let '(is_valid, matched_hash) := verify_backup_code code hashed_codes in
    if is_valid then
      match matched_hash with
      | Some h =>
          hashed_codes' ← list_remove h hashed_codes;
          Return (true, commit db (set_mfa_backup_codes user (Some hashed_codes')))
      | None => Raise (ValueError "list.remove(x): x not in list")
      end
    else Return (false, db).

End MFAService.

(* ===================================================================== *)
(** * Response bodies ([schemas/token.py], [schemas/mfa.py]) *)
(* ===================================================================== *)

(** The bodies an endpoint returns; [Message] is the plain
    [{"message": ...}] dictionary. *)
Inductive response : Type :=
  | Token (access_token : token) (token_type : string)
  | TokenWithRefresh (access_token refresh_token : token) (token_type : string)
  | MFALoginResponse (mfa_required : bool) (temp_token : token) (message : string)
  | Message (message : string).

Record LoginRequest : Type := {
  login_email : string;
  login_password : string
}.

Record MFAVerifyRequest : Type := {
  temp_token : token;
  code : string
}.


(** [payload.get(k)]: a missing key and a JSON null both read as [None]. *)
Definition payload_get (payload : claims) (k : string) : option jvalue :=
  match payload !! k with
  | Some JNull => None
  | o => o
  end.

(** Looking a user up by a claim value: only a string can equal a string
    column. *)
Definition query_user_by_email_claim (db : Database) (v : jvalue) : option User :=
  match v with
  | JStr e => query_user_by_email db e
  | _ => None
  end.

Definition query_user_by_id_claim (db : Database) (v : jvalue) : option User :=
  match v with
  | JStr i => query_user_by_id db i
  | _ => None
  end.

(* ===================================================================== *)
(** * The authenticated-user dependency ([api/deps.py]) *)
(* ===================================================================== *)

Definition get_current_user `{Externals} (settings : Settings) (db : Database)
    (credentials : token) (now : Z) : py_result User :=
  payload ← decode_token settings credentials now;
  match payload with
  | None => Raise (HTTPException HTTP_401_UNAUTHORIZED "Could not validate credentials")
  | Some payload =>
      match payload_get payload "sub" with
      | None => Raise (HTTPException HTTP_401_UNAUTHORIZED "Could not validate credentials")
      | Some user_email =>
          match query_user_by_email_claim db user_email with
          | None => Raise (HTTPException 404 "User not found")
          | Some user =>
              if negb (is_active user)
              then Raise (HTTPException HTTP_403_FORBIDDEN "User account is inactive")
              else Return user
          end
      end
  end.

(* ===================================================================== *)
(** * Authentication endpoints ([api/v1/auth.py]) *)
(* ===================================================================== *)

Module Auth.

Definition login `{Externals} (settings : Settings) (db : Database)
    (login_data : LoginRequest) (now : Z) : py_result response :=
  match query_user_by_email db (login_email login_data) with
  | None => Raise (HTTPException HTTP_401_UNAUTHORIZED "Incorrect email or password")
  | Some user =>
      ok ← verify_password (login_password login_data) (hashed_password user);
      if negb ok
      then Raise (HTTPException HTTP_401_UNAUTHORIZED "Incorrect email or password")
      else if negb (is_active user)
      then Raise (HTTPException HTTP_403_FORBIDDEN "User account is inactive")
      else if negb (email_verified user)
      then Raise (HTTPException HTTP_403_FORBIDDEN
        "Please verify your email before logging in. Check your inbox for the verification link.")
      else if mfa_enabled user then
        let temp_token_data : claims :=
          <["mfa_pending" := JBool true]>
            (<["user_id" := JStr (id user)]> {["sub" := JStr (email user)]}) in
        let temp_token :=
          create_access_token settings temp_token_data (Some (timedelta_minutes 5)) now in
        Return (MFALoginResponse true temp_token "MFA verification required")
      else
        let '(role_name, permissions) :=
          match role_id user with
          | Some r =>
              if r =? 0 then ("user", [])
              else
                match query_role_by_id db r with
                | Some role =>
                    (role_name role, PermissionService.get_user_permissions db user)
                | None => ("user", [])
                end
          | None => ("user", [])
          end in
        let token_data : claims :=
          <["permissions" := JList (JStr <$> permissions)]>
            (<["role" := JStr role_name]>
              (<["user_id" := JStr (id user)]> {["sub" := JStr (email user)]})) in
        let access_token := create_access_token settings token_data None now in
        let refresh_token := create_refresh_token settings token_data now in
        Return (TokenWithRefresh access_token refresh_token "bearer")
  end.

Definition refresh_token `{Externals} (settings : Settings) (db : Database)
    (refresh_token : token) (now : Z) : py_result response :=
  payload ← decode_token settings refresh_token now;
  match payload with
  | None => Raise (HTTPException HTTP_401_UNAUTHORIZED "Invalid refresh token")
  | Some payload =>
      match payload_get payload "sub" with
      | None => Raise (HTTPException HTTP_401_UNAUTHORIZED "Invalid refresh token")
      | Some user_email =>
          match query_user_by_email_claim db user_email with
          | None =>
              Raise (HTTPException HTTP_401_UNAUTHORIZED "User not found or inactive")
          | Some user =>
              if negb (is_active user)
              then Raise (HTTPException HTTP_401_UNAUTHORIZED "User not found or inactive")
              else
                let token_data : claims :=
                  <["user_id" := JStr (id user)]> {["sub" := JStr (email user)]} in
                let access_token := create_access_token settings token_data None now in
                Return (Token access_token "bearer")
          end
      end
  end.

(** [fresh] is the token drawn by [EmailService.generate_token()].  The
    result pairs the response with the store the request leaves behind. *)
Definition resend_verification `{Externals} (db : Database) (request_email : string)
    (fresh : string) (now : Z) : py_result response * Database :=
  match query_user_by_email db request_email with
  | None => (Return (Message "If that email exists, a verification link has been sent"), db)
  | Some user =>
      if email_verified user
      then (Raise (HTTPException HTTP_400_BAD_REQUEST "Email already verified"), db)
      else
        let verification_token := fresh in
        let user := set_verification user (Some verification_token)
                      (Some (now + timedelta_hours 24)) in
        let db := commit db user in
        (send_verification_email (email user) verification_token ;;
         Return (Message "If that email exists, a verification link has been sent"), db)
  end.

Definition forgot_password `{Externals} (db : Database) (request_email : string)
    (fresh : string) (now : Z) : py_result response * Database :=
  match query_user_by_email db request_email with
  | None => (Return (Message "If that email exists, a reset link has been sent"), db)
  | Some user =>
      if negb (email_verified user)
      then (Raise (HTTPException HTTP_400_BAD_REQUEST "Please verify your email first"), db)
      else
        let reset_token := fresh in
        let user := set_reset user (Some reset_token) (Some (now + timedelta_hours 1)) in
        let db := commit db user in
        (send_password_reset_email (email user) reset_token ;;
         Return (Message "If that email exists, a reset link has been sent"), db)
  end.

End Auth.

(* ===================================================================== *)
(** * MFA endpoints ([api/v1/mfa.py]) *)
(* ===================================================================== *)

Module Mfa.

Definition disable_mfa `{Externals} (db : Database) (request_password : string)
    (current_user : User) : py_result response * Database :=
  if negb (mfa_enabled current_user)
  then (Raise (HTTPException HTTP_400_BAD_REQUEST "MFA is not enabled"), db)
  else
    match verify_password request_password (hashed_password current_user) with
    | Raise e => (Raise e, db)
    | Return ok =>
        if negb ok
        then (Raise (HTTPException HTTP_401_UNAUTHORIZED "Incorrect password"), db)
        else (Return (Message "MFA disabled successfully"),
              MFAService.disable_mfa db current_user)
    end.

Definition verify_mfa `{Externals} (settings : Settings) (db : Database)
    (request : MFAVerifyRequest) (now : Z) : py_result response * Database :=
  match decode_token settings (temp_token request) now with
  | Raise e => (Raise e, db)
  | Return payload =>
      match payload with
      | None => (Raise (HTTPException HTTP_401_UNAUTHORIZED "Invalid or expired token"), db)
      | Some payload =>
          if (size payload =? 0)%nat
          then (Raise (HTTPException HTTP_401_UNAUTHORIZED "Invalid or expired token"), db)
          else
            match payload_get payload "user_id" with
            | None => (Raise (HTTPException HTTP_401_UNAUTHORIZED "Invalid token"), db)
            | Some user_id =>
                if negb (truthy user_id)
                then (Raise (HTTPException HTTP_401_UNAUTHORIZED "Invalid token"), db)
                else
                  match query_user_by_id_claim db user_id with
                  | None =>
                      (Raise (HTTPException HTTP_401_UNAUTHORIZED "User not found"), db)
                  | Some user =>
                      match MFAService.verify_user_totp user (code request) now with
                      | Raise e => (Raise e, db)
                      | Return totp_ok =>
                          let verdict :=
                            if totp_ok then Return (true, db)
                            else MFAService.verify_user_backup_code db user (code request) in
                          match verdict with
                          | Raise e => (Raise e, db)
                          | Return (is_valid, db) =>
                              if negb is_valid
                              then (Raise (HTTPException HTTP_401_UNAUTHORIZED
                                             "Invalid MFA code"), db)
                              else
                                let token_data : claims :=
                                  <["mfa_verified" := JBool true]>
                                    (<["user_id" := JStr (id user)]>
                                       {["sub" := JStr (email user)]}) in
                                let access_token :=
                                  create_access_token settings token_data None now in
                                let refresh_token :=
                                  create_refresh_token settings token_data now in
                                (Return (TokenWithRefresh access_token refresh_token "bearer"),
                                 db)
                          end
                      end
                  end
            end
      end
  end.


End Mfa.


(* ===================================================================== *)
(** * A small instance and sample data, to run the model *)
(* ===================================================================== *)

(** Stand-ins for the libraries: a digest is "$2b$" followed by the
    password it was made from, a TOTP code is valid when it is the first
    six characters of the secret, a hash is the code behind "sha256:",
    base64 is the identity, mail always goes out, and the strings that
    convert to an integer are the plain decimal numerals. *)
Fixpoint decimal_value (acc : Z) (s : string) : option Z :=
  match s with
  | EmptyString => Some acc
  | String a r =>
      let d := Z.of_nat (nat_of_ascii a) - 48 in
      if (0 <=? d) && (d <=? 9) then decimal_value (10 * acc + d) r else None
  end.

Definition sample_int_of_str (s : string) : option Z :=
  if String.eqb s "" then None else decimal_value 0 s.

Definition sample_checkpw (pw h : string) : py_result bool :=
  if String.prefix "$2b$" h then Return (String.eqb h ("$2b$" +:+ pw))
  else Raise (ValueError "Invalid salt").

Definition sample_invalid_salt (pw h : string) (Hp : String.prefix "$2b$" h = false)
  : sample_checkpw pw h = Raise (ValueError "Invalid salt").
Proof. unfold sample_checkpw. by rewrite Hp. Qed.

Definition sample_externals : Externals := {|
  bcrypt_checkpw := sample_checkpw;
  bcrypt_salt_ok := String.prefix "$2b$";
  bcrypt_invalid_salt := sample_invalid_salt;
  totp_verify := fun secret code _ _ => Return (String.eqb code (String.substring 0 6 secret));
  sha256_hexdigest := fun s => "sha256:" +:+ s;
  b64decode := fun s => Return s;
  send_verification_email := fun _ _ => Return tt;
  send_password_reset_email := fun _ _ => Return tt;
  int_of_str := sample_int_of_str
|}.

Definition sample_settings : Settings := {|
  SECRET_KEY := "process-wide-secret";
  ALGORITHM := "HS256";
  ACCESS_TOKEN_EXPIRE_MINUTES := 30;
  REFRESH_TOKEN_EXPIRE_DAYS := 7
|}.

Definition perm (i : Z) (category action : string) : Permission :=
  {| perm_id := i; perm_name := category +:+ "." +:+ action;
     perm_category := category; perm_action := action |}.

Definition role_support : Role :=
  {| role_pk := 1; role_name := "support"; role_display_name := "Support";
     is_system_role := false; role_permissions := [perm 1 "users" "*"] |}.

Definition role_super : Role :=
  {| role_pk := 2; role_name := "super_admin"; role_display_name := "Super Admin";
     is_system_role := true;
     role_permissions := [perm 2 "users" "read"; perm 3 "system" "*"] |}.

Definition role_viewer : Role :=
  {| role_pk := 3; role_name := "viewer"; role_display_name := "Viewer";
     is_system_role := false; role_permissions := [perm 2 "users" "read"] |}.

(** A verified, active account without MFA. *)
Definition plain_user (uid mail : string) (r : option Z) (super : bool) : User :=
  {| id := uid; email := mail; hashed_password := "$2b$Passw0rd1";
     is_active := true; is_superuser := super; role_id := r;
     mfa_enabled := false; mfa_secret := None; mfa_backup_codes := None;
     email_verified := true;
     verification_token := None; verification_token_expires := None;
     reset_token := None; reset_token_expires := None |}.

Definition alice : User := plain_user "u-alice" "alice@x.com" (Some 1) false.
Definition bob : User := plain_user "u-bob" "bob@x.com" (Some 3) true.
Definition root : User := plain_user "u-root" "root@x.com" (Some 2) false.

(** Carol has MFA on, with two backup codes left. *)
Definition carol : User :=
  set_mfa (plain_user "u-carol" "carol@x.com" (Some 3) false)
    true (Some "JBSWY3DPEHPK3PXP") (Some ["sha256:ABCD2345"; "sha256:WXYZ6789"]).

(** Dave has registered and not yet verified his email. *)
Definition dave : User :=
  {| id := "u-dave"; email := "dave@x.com"; hashed_password := "$2b$Passw0rd1";
     is_active := true; is_superuser := false; role_id := None;
     mfa_enabled := false; mfa_secret := None; mfa_backup_codes := None;
     email_verified := false;
     verification_token := Some "tok-0"; verification_token_expires := Some 86400000000;
     reset_token := None; reset_token_expires := None |}.

Definition sample_db : Database :=
  {| users := [alice; bob; root; carol; dave];
     roles := [role_support; role_super; role_viewer] |}.



(** The same store without Dave's row. *)
Definition sample_db_without_dave : Database :=
  {| users := [alice; bob; root; carol];
     roles := [role_support; role_super; role_viewer] |}.

(** The same store without Alice's row. *)
Definition sample_db_without_alice : Database :=
  {| users := [bob; root; carol; dave];
     roles := [role_support; role_super; role_viewer] |}.

(* ===================================================================== *)
(** * Further operations of the same files *)
(* ===================================================================== *)

(** ** [core/security.py]: password-reset tokens and expiry helpers *)

Definition generate_password_reset_token (settings : Settings) (email : string)
    (now : Z) : token :=
  let delta := timedelta_minutes 30 in
  create_access_token settings
    (<["type" := JStr "password_reset"]> {["sub" := JStr email]}) (Some delta) now.

(** [v == s] for a claim value read with [payload.get] and a string. *)
Definition claim_is_str (v : option jvalue) (s : string) : bool :=
  match v with
  | Some (JStr s') => String.eqb s' s
  | _ => false
  end.

(** Truthiness of a decoded payload: a non-empty dictionary. *)
Definition payload_truthy (payload : option claims) : bool :=
  match payload with
  | Some p => negb (size p =? 0)%nat
  | None => false
  end.

Definition verify_password_reset_token `{Externals} (settings : Settings) (t : token)
    (now : Z) : py_result (option jvalue) :=
  payload ← decode_token settings t now;
  if payload_truthy payload
     && claim_is_str (payload_get (default ∅ payload) "type") "password_reset"
  then Return (payload_get (default ∅ payload) "sub")
  else Return None.

(** [datetime.fromtimestamp(ts)] gives local time: [utcoffset] is the
    process's offset from UTC, in microseconds.  It takes a number; a
    token can decode with a numeric string for [exp], and that, like any
    other value, is a [TypeError] here. *)
Definition get_token_expiration `{Externals} (settings : Settings) (utcoffset : Z)
    (t : token) (now : Z) : py_result (option Z) :=
  payload ← decode_token settings t now;
  if payload_truthy payload then
    match default ∅ payload !! "exp" with
    | Some v =>
        match Jose.as_int v with
        | Some ts => Return (Some (ts * 1000000 + utcoffset))
        | None => Raise (LibraryError "TypeError")
        end
    | None => Return None
    end
  else Return None.

Definition is_token_expired `{Externals} (settings : Settings) (utcoffset : Z)
    (t : token) (now : Z) : py_result bool :=
  exp_time ← get_token_expiration settings utcoffset t now;
  match exp_time with
  | Some exp_time => Return (exp_time <? now)
  | None => Return true
  end.

(** ** [api/deps.py]: the other dependencies *)

Definition get_current_superuser (current_user : User) : py_result User :=
  if negb (is_superuser current_user)
  then Raise (HTTPException HTTP_403_FORBIDDEN
                "Not enough permissions. Superuser access required.")
  else Return current_user.

(** The whole body sits in [try: ... except Exception: return None]. *)
Definition get_current_user_optional `{Externals} (settings : Settings) (db : Database)
    (credentials : option token) (now : Z) : option User :=
  match credentials with
  | None => None
  | Some t =>
      match decode_token settings t now with
      | Raise _ => None
      | Return None => None
      | Return (Some payload) =>
          match payload_get payload "sub" with
          | None => None
          | Some user_email => query_user_by_email_claim db user_email
          end
      end
  end.

(** ** [services/email_service.py]: link expiry *)

Module EmailService.

Definition is_token_valid (token_expires : option Z) (now : Z) : bool :=
  match token_expires with
  | None => false
  | Some expires => now <? expires
  end.

End EmailService.

(** ** More field updates and store operations *)

Definition set_email_verified (u : User) (v : bool) : User :=
  {| id := id u; email := email u; hashed_password := hashed_password u;
     is_active := is_active u; is_superuser := is_superuser u; role_id := role_id u;
     mfa_enabled := mfa_enabled u; mfa_secret := mfa_secret u;
     mfa_backup_codes := mfa_backup_codes u;
     email_verified := v;
     verification_token := verification_token u;
     verification_token_expires := verification_token_expires u;
     reset_token := reset_token u; reset_token_expires := reset_token_expires u |}.

Definition set_hashed_password (u : User) (h : string) : User :=
  {| id := id u; email := email u; hashed_password := h;
     is_active := is_active u; is_superuser := is_superuser u; role_id := role_id u;
     mfa_enabled := mfa_enabled u; mfa_secret := mfa_secret u;
     mfa_backup_codes := mfa_backup_codes u;
     email_verified := email_verified u;
     verification_token := verification_token u;
     verification_token_expires := verification_token_expires u;
     reset_token := reset_token u; reset_token_expires := reset_token_expires u |}.

Definition set_is_active (u : User) (a : bool) : User :=
  {| id := id u; email := email u; hashed_password := hashed_password u;
     is_active := a; is_superuser := is_superuser u; role_id := role_id u;
     mfa_enabled := mfa_enabled u; mfa_secret := mfa_secret u;
     mfa_backup_codes := mfa_backup_codes u;
     email_verified := email_verified u;
     verification_token := verification_token u;
     verification_token_expires := verification_token_expires u;
     reset_token := reset_token u; reset_token_expires := reset_token_expires u |}.

Definition set_role_id (u : User) (r : option Z) : User :=
  {| id := id u; email := email u; hashed_password := hashed_password u;
     is_active := is_active u; is_superuser := is_superuser u; role_id := r;
     mfa_enabled := mfa_enabled u; mfa_secret := mfa_secret u;
     mfa_backup_codes := mfa_backup_codes u;
     email_verified := email_verified u;
     verification_token := verification_token u;
     verification_token_expires := verification_token_expires u;
     reset_token := reset_token u; reset_token_expires := reset_token_expires u |}.

(** [db.delete(user); db.commit()]: the row with that primary key goes. *)
Fixpoint remove_user (us : list User) (u : User) : list User :=
  match us with
  | [] => []
  | v :: rest =>
      if String.eqb (id v) (id u) then rest else v :: remove_user rest u
  end.

Definition delete_user_row (db : Database) (u : User) : Database :=
  {| users := remove_user (users db) u; roles := roles db |}.

(** [db.delete(role); db.commit()] *)
Fixpoint remove_role (rs : list Role) (r : Role) : list Role :=
  match rs with
  | [] => []
  | v :: rest =>
      if role_pk v =? role_pk r then rest else v :: remove_role rest r
  end.

Definition delete_role_row (db : Database) (r : Role) : Database :=
  {| users := users db; roles := remove_role (roles db) r |}.

(** [db.query(User).filter(User.role_id == r).count()] *)
Definition count_users_with_role (db : Database) (r : Z) : nat :=
  length (filter (fun u => role_id u = Some r) (users db)).

(** [db.query(User).filter(User.verification_token == t).first()] *)
Definition query_user_by_verification_token (db : Database) (t : string) : option User :=
  List.find (fun u => bool_decide (verification_token u = Some t)) (users db).

(** [db.query(User).filter(User.reset_token == t).first()] *)
Definition query_user_by_reset_token (db : Database) (t : string) : option User :=
  List.find (fun u => bool_decide (reset_token u = Some t)) (users db).

(** ** [services/permission_service.py]: role assignment *)

Definition assign_role_to_user (user_id : string) (role_id : Z) (db : Database)
  : py_result unit * Database :=
  match query_user_by_id db user_id with
  | None => (Raise (ValueError ("User with ID " +:+ user_id +:+ " not found")), db)
  | Some user =>
      match query_role_by_id db role_id with
      | None =>
          (Raise (ValueError ("Role with ID " +:+ pretty role_id +:+ " not found")), db)
      | Some role => (Return tt, commit db (set_role_id user (Some role_id)))
      end
  end.

(** ** [api/v1/roles.py]: deleting a role *)

Definition delete_role (db : Database) (role_id : Z) : py_result response * Database :=
  match query_role_by_id db role_id with
  | None =>
      (Raise (HTTPException 404 ("Role with ID " +:+ pretty role_id +:+ " not found")), db)
  | Some role =>
      if is_system_role role
      then (Raise (HTTPException HTTP_403_FORBIDDEN "Cannot delete system roles"), db)
      else
        let user_count := count_users_with_role db (role_pk role) in
        if (0 <? user_count)%nat
        then (Raise (HTTPException HTTP_400_BAD_REQUEST
                       ("Cannot delete role with " +:+ pretty user_count
                        +:+ " assigned user(s). Reassign users first.")), db)
        else (Return (Message ("Role '" +:+ role_display_name role
                               +:+ "' deleted successfully")),
              delete_role_row db role)
  end.

(** ** [api/v1/users.py]: administration of accounts

    [UserResponse.from_orm(user)] is kept as the user row it is read
    from. *)
Module Users.

Definition delete_user (db : Database) (user_id : string) (current_user : User)
  : py_result response * Database :=
  if String.eqb user_id (id current_user)
  then (Raise (HTTPException HTTP_400_BAD_REQUEST "Cannot delete your own account"), db)
  else
    match query_user_by_id db user_id with
    | None =>
        (Raise (HTTPException 404 ("User with ID " +:+ user_id +:+ " not found")), db)
    | Some user =>
        (Return (Message ("User " +:+ email user +:+ " deleted successfully")),
         delete_user_row db user)
    end.

Definition toggle_user_status (db : Database) (user_id : string) (active : bool)
    (current_user : User) : py_result User * Database :=
  if String.eqb user_id (id current_user) && negb active
  then (Raise (HTTPException HTTP_400_BAD_REQUEST "Cannot deactivate your own account"),
        db)
  else
    match query_user_by_id db user_id with
    | None =>
        (Raise (HTTPException 404 ("User with ID " +:+ user_id +:+ " not found")), db)
    | Some user =>
        let user := set_is_active user active in
        (Return user, commit db user)
    end.

Definition assign_user_role (db : Database) (user_id : string) (request_role_id : Z)
  : py_result User * Database :=
  match query_user_by_id db user_id with
  | None =>
      (Raise (HTTPException 404 ("User with ID " +:+ user_id +:+ " not found")), db)
  | Some user =>
      match query_role_by_id db request_role_id with
      | None =>
          (Raise (HTTPException 404
                    ("Role with ID " +:+ pretty request_role_id +:+ " not found")), db)
      | Some role =>
          let user := set_role_id user (Some request_role_id) in
          (Return user, commit db user)
      end
  end.

End Users.

(** ** [api/v1/auth.py]: email verification and password reset

    [hashpw pw salt] stands for [bcrypt.hashpw(pw.encode(), salt).decode()];
    the salt drawn by [bcrypt.gensalt()] is an input of the request. *)
Section AuthMore.

Context `{Externals}.
Variable hashpw : string -> string -> string.

Definition hash_password (salt : string) (password : string) : string :=
  hashpw password salt.

Definition verify_email (db : Database) (tok : string) (now : Z)
  : py_result response * Database :=
  match query_user_by_verification_token db tok with
  | None =>
      (Raise (HTTPException HTTP_400_BAD_REQUEST "Invalid or expired verification token"),
       db)
  | Some user =>
      if email_verified user then (Return (Message "Email already verified"), db)
      else if negb (EmailService.is_token_valid (verification_token_expires user) now)
      then (Raise (HTTPException HTTP_400_BAD_REQUEST
                     "Verification token has expired. Please request a new one"), db)
      else
        let user := set_verification (set_email_verified user true) None None in
        (Return (Message "Email verified successfully. You can now login"),
         commit db user)
  end.

Definition reset_password (db : Database) (tok : string) (new_password : string)
    (salt : string) (now : Z) : py_result response * Database :=
  match query_user_by_reset_token db tok with
  | None =>
      (Raise (HTTPException HTTP_400_BAD_REQUEST "Invalid or expired reset token"), db)
  | Some user =>
      if negb (EmailService.is_token_valid (reset_token_expires user) now)
      then
        let user := set_reset user None None in
        (Raise (HTTPException HTTP_400_BAD_REQUEST
                  "Reset token has expired. Please request a new one"),
         commit db user)
      else
        let user := set_hashed_password user (hash_password salt new_password) in
        let user := set_reset user None None in
        (Return (Message "Password reset successful"), commit db user)
  end.

End AuthMore.

(** ** [services/mfa_service.py] and [api/v1/mfa.py]: enabling MFA and
    regenerating backup codes

    [b64encode s] stands for [base64.b64encode(s.encode()).decode()]; the
    codes drawn by [generate_backup_codes()] are an input of the request. *)
Section MfaMore.

Context `{Externals}.
Variable b64encode : string -> string.

Definition encrypt_secret (secret : string) : string := b64encode secret.

Definition service_enable_mfa (db : Database) (user : User) (secret : string)
    (backup_codes : list string) : Database :=
  let hashed_codes := MFAService.hash_backup_code <$> backup_codes in
  commit db (set_mfa user true (Some (encrypt_secret secret)) (Some hashed_codes)).

Definition enable_mfa (db : Database) (secret code : string) (current_user : User)
    (fresh_codes : list string) (now : Z) : py_result response * Database :=
  if mfa_enabled current_user
  then (Raise (HTTPException HTTP_400_BAD_REQUEST "MFA is already enabled"), db)
  else if negb (MFAService.verify_totp secret code 1 now)
  then (Raise (HTTPException HTTP_401_UNAUTHORIZED "Invalid verification code"), db)
  else
    let backup_codes := fresh_codes in
    (Return (Message "MFA enabled successfully"),
     service_enable_mfa db current_user secret backup_codes).

End MfaMore.

(** The body of [BackupCodesResponse] is the list of codes (the message is
    fixed). *)
Definition regenerate_backup_codes `{Externals} (db : Database)
    (request_password : string) (current_user : User) (fresh_codes : list string)
  : py_result (list string) * Database :=
  if negb (mfa_enabled current_user)
  then (Raise (HTTPException HTTP_400_BAD_REQUEST "MFA is not enabled"), db)
  else
    match verify_password request_password (hashed_password current_user) with
    | Raise e => (Raise e, db)
    | Return ok =>
        if negb ok
        then (Raise (HTTPException HTTP_401_UNAUTHORIZED "Incorrect password"), db)
        else
          let backup_codes := fresh_codes in
          let hashed_codes := MFAService.hash_backup_code <$> backup_codes in
          (Return backup_codes,
           commit db (set_mfa_backup_codes current_user (Some hashed_codes)))
    end.

(** ** More sample data *)

(** A custom role nobody is assigned to. *)
Definition role_auditor : Role :=
  {| role_pk := 4; role_name := "auditor"; role_display_name := "Auditor";
     is_system_role := false; role_permissions := [perm 4 "reports" "read"] |}.

Definition sample_db_with_auditor : Database :=
  {| users := users sample_db; roles := roles sample_db ++ [role_auditor] |}.

(* ===================================================================== *)
(** * Theorems: permission resolution *)
(* ===================================================================== *)

Section PermissionFacts.

Import PermissionService.

Variables (db : Database) (user : User).

Lemma has_permission_system_wildcard (requested : string) :
  "system.*" ∈ get_user_permissions db user →
  user_has_permission db user requested = true.
Proof.
  intros Hsys. unfold user_has_permission.
  by rewrite bool_decide_eq_true_2.
Qed.

(** The verdict written as one proposition over the resolved names. *)
Lemma has_permission_spec (requested : string) :
  user_has_permission db user requested = true ↔
    "system.*" ∈ get_user_permissions db user
    ∨ requested ∈ get_user_permissions db user
    ∨ (contains "."%char requested = true
       ∧ split_head "."%char requested +:+ ".*" ∈ get_user_permissions db user).
Proof.
  unfold user_has_permission.
  destruct (decide ("system.*" ∈ get_user_permissions db user)) as [Hs|Hs].
  { rewrite (bool_decide_eq_true_2 _ Hs). tauto. }
  rewrite (bool_decide_eq_false_2 _ Hs).
  destruct (decide (requested ∈ get_user_permissions db user)) as [Hr|Hr].
  { rewrite (bool_decide_eq_true_2 _ Hr). tauto. }
  rewrite (bool_decide_eq_false_2 _ Hr).
  destruct (contains "."%char requested).
  - destruct (decide (split_head "."%char requested +:+ ".*"
                        ∈ get_user_permissions db user)) as [Hc|Hc].
    + rewrite (bool_decide_eq_true_2 _ Hc). tauto.
    + rewrite (bool_decide_eq_false_2 _ Hc). split; [discriminate | tauto].
  - split; [discriminate | intros [?|[?|[? _]]]; [tauto | tauto | discriminate]].
Qed.

Lemma has_permission_false (requested : string) :
  "system.*" ∉ get_user_permissions db user →
  requested ∉ get_user_permissions db user →
  (contains "."%char requested = true →
   split_head "."%char requested +:+ ".*" ∉ get_user_permissions db user) →
  user_has_permission db user requested = false.
Proof.
  intros H1 H2 H3. apply not_true_iff_false. rewrite has_permission_spec.
  tauto.
Qed.

(** Two users pointing at the same role get the same verdicts: nothing
    else of the user record is read. *)
Lemma has_permission_role_only (other : User) (requested : string) :
  role_id other = role_id user →
  user_has_permission db other requested = user_has_permission db user requested.
Proof.
  intros Hrole. unfold user_has_permission, get_user_permissions, user_role.
  by rewrite Hrole.
Qed.

End PermissionFacts.

(** C4. A user whose role is granted exactly the set {users.*} passes the
    check for "users.read" and "users.delete" and fails it for
    "products.read"; a user whose role's permissions contain system.*
    passes the check for every requested name. *)
Theorem wildcard_semantics (db : Database) (user : User) (role : Role) :
  user_role db user = Some role →
  ((∀ p, p ∈ perm_name <$> role_permissions role ↔ p = "users.*") →
     PermissionService.user_has_permission db user "users.read" = true
     ∧ PermissionService.user_has_permission db user "users.delete" = true
     ∧ PermissionService.user_has_permission db user "products.read" = false)
  ∧ ("system.*" ∈ perm_name <$> role_permissions role →
     ∀ requested, PermissionService.user_has_permission db user requested = true).
Proof.
  intros Hrole.
  assert (Hperms : PermissionService.get_user_permissions db user
                   = perm_name <$> role_permissions role).
  { unfold PermissionService.get_user_permissions. by rewrite Hrole. }
  split.
  - intros Hexact.
    assert (Hin : "users.*" ∈ PermissionService.get_user_permissions db user).
    { rewrite Hperms. by apply Hexact. }
    assert (Hout : ∀ p, p ≠ "users.*" →
                        p ∉ PermissionService.get_user_permissions db user).
    { intros p Hp Hmem. rewrite Hperms in Hmem. by apply Hexact in Hmem. }
    split; [|split].
    + apply has_permission_spec. right; right. by split.
    + apply has_permission_spec. right; right. by split.
    + apply has_permission_false; [| |intros _]; apply Hout; discriminate.
  - intros Hsys requested. apply has_permission_system_wildcard.
    by rewrite Hperms.
Qed.

(** Alice's role grants exactly users.*, Root's role contains system.*. *)
Lemma wildcard_semantics_witness :
  (PermissionService.user_has_permission sample_db alice "users.read" = true
   ∧ PermissionService.user_has_permission sample_db alice "users.delete" = true
   ∧ PermissionService.user_has_permission sample_db alice "products.read" = false)
  ∧ (∀ requested, PermissionService.user_has_permission sample_db root requested = true).
Proof.
  split.
  - apply (wildcard_semantics sample_db alice role_support); [reflexivity|].
    intros p. cbn. rewrite list_elem_of_singleton. reflexivity.
  - apply (wildcard_semantics sample_db root role_super); [reflexivity|].
    cbn. apply list_elem_of_further, list_elem_of_here.
Defined.

(** C10. The check reads the permission names of the user's role and
    nothing else of the user: users with the same role get the same
    verdict, and a superuser whose role grants neither system.*, nor the
    requested name, nor the requested name's category wildcard is refused. *)
Theorem superuser_flag_not_consulted (db : Database) (user : User) (requested : string) :
  is_superuser user = true →
  "system.*" ∉ PermissionService.get_user_permissions db user →
  requested ∉ PermissionService.get_user_permissions db user →
  (contains "."%char requested = true →
   split_head "."%char requested +:+ ".*" ∉ PermissionService.get_user_permissions db user) →
  PermissionService.user_has_permission db user requested = false
  ∧ ∀ other, role_id other = role_id user →
      PermissionService.user_has_permission db other requested = false.
Proof.
  intros _ Hsys Hreq Hcat.
  assert (Hf : PermissionService.user_has_permission db user requested = false)
    by by apply has_permission_false.
  split; [exact Hf|].
  intros other Hrole. by rewrite (has_permission_role_only db user other).
Qed.

(** Bob is a superuser whose role grants users.read only. *)
Lemma superuser_flag_not_consulted_witness :
  is_superuser bob = true
  ∧ PermissionService.user_has_permission sample_db bob "users.delete" = false.
Proof.
  split; [reflexivity|].
  refine (proj1 (superuser_flag_not_consulted sample_db bob "users.delete" eq_refl _ _ _)).
  - cbn. rewrite list_elem_of_singleton. discriminate.
  - cbn. rewrite list_elem_of_singleton. discriminate.
  - intros _. cbn. rewrite list_elem_of_singleton. discriminate.
Defined.

(* ===================================================================== *)
(** * Theorems: the token service *)
(* ===================================================================== *)

Section JoseFacts.

Import Jose.

Context `{Externals}.

Lemma bind_unit_Return (m : py_result unit) (k : py_result unit) :
  (m ;; k) = Return tt ↔ m = Return tt ∧ k = Return tt.
Proof.
  destruct m as [[]|e]; cbn.
  - split; [intros Hk; by split | intros [_ Hk]; exact Hk].
  - split; [discriminate | intros [Hm _]; discriminate].
Qed.

Lemma bind_unit_Raise (m : py_result unit) (k : py_result unit) (e : exn) :
  (m ;; k) = Raise e → m = Raise e ∨ k = Raise e.
Proof. destruct m as [[]|e']; cbn; auto. Qed.

(** What a time-claim check raises is a [JWTError], or the [TypeError] of
    [int()] on that claim. *)
Lemma check_int_claim_Raise name c ok err e :
  is_JWTError err = true →
  check_int_claim name c ok err = Raise e →
  is_JWTError e = true
  ∨ (e = LibraryError "TypeError" ∧ int_TypeError (c !! name) = true).
Proof.
  intros Herr. unfold check_int_claim, int_TypeError.
  destruct (c !! name) as [v|]; [|discriminate].
  destruct (py_int v) as [n| |]; [destruct (ok n)| |]; intros [= <-]; auto.
Qed.

Lemma check_str_claim_Raise name c e :
  check_str_claim name c = Raise e → is_JWTError e = true.
Proof.
  unfold check_str_claim.
  destruct (c !! name) as [[]|]; intros [= <-]; done.
Qed.

Lemma check_absent_Raise name c e :
  check_absent name c = Raise e → is_JWTError e = true.
Proof.
  unfold check_absent. destruct (c !! name); intros [= <-]; done.
Qed.

(** What the validation raises is a [JWTError], or the [TypeError] of
    [int()] on one of the three time claims. *)
Lemma validate_claims_Raise c now e :
  validate_claims c now = Raise e →
  is_JWTError e = true
  ∨ (e = LibraryError "TypeError" ∧ time_claims_TypeError c = true).
Proof.
  unfold validate_claims, time_claims_TypeError. intros Hv.
  apply bind_unit_Raise in Hv as [Hv|Hv].
  { apply check_int_claim_Raise in Hv as [?|[-> Ht]]; [by left|right|done].
    by rewrite Ht. }
  apply bind_unit_Raise in Hv as [Hv|Hv].
  { apply check_int_claim_Raise in Hv as [?|[-> Ht]]; [by left|right|done].
    by rewrite Ht, orb_true_r. }
  apply bind_unit_Raise in Hv as [Hv|Hv].
  { apply check_int_claim_Raise in Hv as [?|[-> Ht]]; [by left|right|done].
    by rewrite Ht, !orb_true_r. }
  left.
  repeat (apply bind_unit_Raise in Hv as [Hv|Hv];
          [first [ by eapply check_str_claim_Raise in Hv
                 | by eapply check_absent_Raise in Hv ] |]).
  by eapply check_absent_Raise in Hv.
Qed.

Lemma decode_Raise t key algs now e :
  decode t key algs now = Raise e →
  is_JWTError e = true
  ∨ (e = LibraryError "TypeError" ∧ time_claims_TypeError (token_claims t) = true).
Proof.
  unfold decode. destruct t as [s|alg payload k]; [intros [= <-]; by left|].
  destruct (negb _); [intros [= <-]; by left|].
  destruct (negb _); [intros [= <-]; by left|].
  destruct (validate_claims payload now) as [[]|e'] eqn:Hv; cbn; [discriminate|].
  intros [= <-]. by eapply validate_claims_Raise.
Qed.

(** The one exception [decode_token] lets through is that [TypeError]. *)
Lemma decode_token_Raise settings t now e :
  decode_token settings t now = Raise e →
  e = LibraryError "TypeError" ∧ time_claims_TypeError (token_claims t) = true.
Proof.
  unfold decode_token.
  destruct (decode _ _ _ _) as [p|e'] eqn:Hd; [done|].
  destruct (decode_Raise _ _ _ _ _ Hd) as [Hj|[-> Ht]].
  - by rewrite Hj.
  - cbn. by intros [= <-].
Qed.

(** Decoding a token that bears the process key under the configured
    algorithm comes down to validating its claims. *)
Lemma decode_own_token settings payload now :
  decode (Jwt (ALGORITHM settings) payload (SECRET_KEY settings))
         (SECRET_KEY settings) [ALGORITHM settings] now
  = (validate_claims payload now ;; Return payload).
Proof.
  unfold decode.
  rewrite bool_decide_eq_true_2 by apply list_elem_of_here.
  by rewrite String.eqb_refl.
Qed.

End JoseFacts.

Section TokenRoundTrip.

Import Jose.

Context `{Externals}.

Variables (settings : Settings) (data : claims).

Lemma create_access_token_claims (ttl issued : Z) :
  ttl ≠ 0 →
  create_access_token settings data (Some ttl) issued
  = Jwt (ALGORITHM settings) (minted data issued ttl) (SECRET_KEY settings).
Proof.
  intros Httl. unfold create_access_token, encode, minted.
  by rewrite (proj2 (Z.eqb_neq ttl 0) Httl).
Qed.

(** Validation of a claim set stamped with an expiry [x] and an issue
    second [i], both integers. *)
Lemma validate_stamped (i x now : Z) :
  validate_claims (<["iat" := JInt i]> (<["exp" := JInt x]> data)) now = Return tt
  ↔ timegm now ≤ x ∧ other_claims_ok data now = true.
Proof.
  unfold validate_claims, other_claims_ok.
  rewrite !bind_unit_Return, !andb_true_iff.
  unfold check_int_claim, check_absent, check_str_claim.
  rewrite lookup_insert_eq.
  rewrite (lookup_insert_ne _ "iat" "exp") by done.
  rewrite lookup_insert_eq.
  rewrite !(lookup_insert_ne _ "iat") by done.
  rewrite !(lookup_insert_ne _ "exp") by done.
  cbn [py_int].
  destruct (Z.ltb_spec x (timegm now)) as [Hlt|Hge]; cbn [negb].
  - split; [intros (_ & _ & [=] & _) | intros [Hle _]; lia].
  - split.
    + intros (_ & Hnbf & _ & Haud & Hsub & Hjti & Hat).
      split; [exact Hge|].
      rewrite Hnbf, Haud, Hsub, Hjti, Hat. done.
    + intros [_ ((((Hnbf & Haud) & Hsub) & Hjti) & Hat)].
      repeat split.
      * by destruct (match data !! "nbf" with Some _ => _ | None => _ end) as [[]|].
      * by destruct (match data !! "aud" with Some _ => _ | None => _ end) as [[]|].
      * by destruct (match data !! "sub" with Some _ => _ | None => _ end) as [[]|].
      * by destruct (match data !! "jti" with Some _ => _ | None => _ end) as [[]|].
      * by destruct (match data !! "at_hash" with Some _ => _ | None => _ end) as [[]|].
Qed.

Lemma time_claims_TypeError_stamped (i x : Z) :
  time_claims_TypeError (<["iat" := JInt i]> (<["exp" := JInt x]> data))
  = int_TypeError (data !! "nbf").
Proof.
  unfold time_claims_TypeError.
  rewrite lookup_insert_eq.
  rewrite !(lookup_insert_ne _ "iat") by done.
  rewrite lookup_insert_eq.
  rewrite (lookup_insert_ne _ "exp") by done.
  cbn [int_TypeError py_int]. by rewrite orb_false_r.
Qed.

(** Past [exp] the validation raises a [JWTError], unless [int()] has
    raised on [nbf] before the expiry is looked at. *)
Lemma validate_stamped_expired (i x now : Z) :
  x < timegm now →
  int_TypeError (data !! "nbf") = false →
  ∃ e, validate_claims (<["iat" := JInt i]> (<["exp" := JInt x]> data)) now = Raise e
       ∧ is_JWTError e = true.
Proof.
  intros Hlt Hnbf.
  destruct (validate_claims _ now) as [[]|e] eqn:Hv.
  - apply validate_stamped in Hv as [Hle _]. lia.
  - exists e. split; [done|].
    apply validate_claims_Raise in Hv as [?|[_ Ht]]; [done|].
    rewrite time_claims_TypeError_stamped in Ht. congruence.
Qed.


Lemma validate_minted (issued ttl now : Z) :
  validate_claims (minted data issued ttl) now = Return tt
  ↔ timegm now ≤ timegm (issued + ttl) ∧ other_claims_ok data now = true.
Proof. apply validate_stamped. Qed.

Lemma validate_minted_expired (issued ttl now : Z) :
  timegm (issued + ttl) < timegm now →
  int_TypeError (data !! "nbf") = false →
  ∃ e, validate_claims (minted data issued ttl) now = Raise e ∧ is_JWTError e = true.
Proof. apply validate_stamped_expired. Qed.


End TokenRoundTrip.


(** When the two readings of the clock agree and the expiry is a
    datetime, the call in full returns the token of
    [create_access_token]. *)
Lemma create_access_token_at_same (settings : Settings) (data : claims)
    (expires_delta : option Z) (now : Z) (tok : token) :
  create_access_token_at settings data expires_delta now now = Return tok →
  tok = create_access_token settings data expires_delta now.
Proof.
  unfold create_access_token_at, create_access_token.
  destruct (negb (in_datetime_range _)); [done|]. by intros [= <-].
Qed.




(* ===================================================================== *)
(** * Theorems: login and refresh *)
(* ===================================================================== *)

(** The claims of a minted token are the data with [exp] and [iat] set. *)
Lemma create_access_token_lookup settings data expires_delta now k :
  k ≠ "exp" → k ≠ "iat" →
  token_claims (create_access_token settings data expires_delta now) !! k = data !! k.
Proof.
  intros Hexp Hiat. unfold create_access_token, Jose.encode. cbn [token_claims].
  by rewrite !lookup_insert_ne.
Qed.

Lemma create_access_token_dom settings data expires_delta now :
  dom (token_claims (create_access_token settings data expires_delta now))
  = {["iat"]} ∪ ({["exp"]} ∪ dom data).
Proof.
  unfold create_access_token, Jose.encode. cbn [token_claims].
  by rewrite !dom_insert_L.
Qed.

(** C1, as amended.  On a successful password login without MFA the
    refresh token is minted from the same claim data as the session token.
    Besides [exp] and [iat] it carries the subject, the user id, the role
    name and the permission list resolved at login: the name of the role
    row the user's role_id points to and the permission resolver's list
    for the user, or "user" and the empty list when there is no such row
    or the key is 0.  Apart from the two timestamps the two tokens carry
    the same claims. *)
Theorem login_refresh_token_claims `{Externals} (settings : Settings) (db : Database)
    (login_data : LoginRequest) (now : Z) (access refresh : token) (ty : string) :
  Auth.login settings db login_data now = Return (TokenWithRefresh access refresh ty) →
  ∃ user,
    query_user_by_email db (login_email login_data) = Some user
    ∧ mfa_enabled user = false
    ∧ token_claims refresh !! "sub" = Some (JStr (email user))
    ∧ token_claims refresh !! "user_id" = Some (JStr (id user))
    ∧ (∀ role, user_role db user = Some role → role_id user ≠ Some 0 →
         token_claims refresh !! "role" = Some (JStr (role_name role))
         ∧ token_claims refresh !! "permissions"
           = Some (JList (JStr <$> PermissionService.get_user_permissions db user)))
    ∧ (user_role db user = None ∨ role_id user = Some 0 →
         token_claims refresh !! "role" = Some (JStr "user")
         ∧ token_claims refresh !! "permissions" = Some (JList []))
    ∧ dom (token_claims refresh)
      = {["sub"; "user_id"; "role"; "permissions"; "exp"; "iat"]}
    ∧ ∀ k, k ≠ "exp" → k ≠ "iat" →
           token_claims refresh !! k = token_claims access !! k.
Proof.
  unfold Auth.login. intros Hlogin.
  destruct (query_user_by_email db (login_email login_data)) as [user|] eqn:Hq; [|done].
  destruct (verify_password _ _) as [ok|e]; cbn in Hlogin; [|done].
  destruct ok; cbn in Hlogin; [|done].
  destruct (is_active user); cbn in Hlogin; [|done].
  destruct (email_verified user); cbn in Hlogin; [|done].
  destruct (mfa_enabled user) eqn:Hmfa; [done|].
  destruct (match role_id user with Some _ => _ | None => _ end)
    as [rn ps] eqn:Hrp.
  injection Hlogin as <- <- _.
  assert (Hres :
    (∀ role, user_role db user = Some role → role_id user ≠ Some 0 →
       rn = role_name role ∧ ps = PermissionService.get_user_permissions db user)
    ∧ (user_role db user = None ∨ role_id user = Some 0 → rn = "user" ∧ ps = [])).
  { unfold user_role. destruct (role_id user) as [r|].
    - destruct (r =? 0) eqn:Hr0.
      + apply Z.eqb_eq in Hr0 as ->. injection Hrp as <- <-.
        split; [by intros role _ Hne | done].
      + apply Z.eqb_neq in Hr0.
        destruct (query_role_by_id db r) as [role|]; injection Hrp as <- <-.
        * split; [by intros role' [= <-] _ | intros [[=]|[= ->]]; done].
        * done.
    - injection Hrp as <- <-. split; [by intros role [=] | done]. }
  destruct Hres as [Hsome Hnone].
  exists user. split; [done|]. split; [done|].
  unfold create_refresh_token.
  rewrite !create_access_token_lookup by done.
  rewrite create_access_token_dom, !dom_insert_L, dom_singleton_L.
  split; [by simplify_map_eq|]. split; [by simplify_map_eq|].
  split; [|split; [|split]].
  - intros role Hrole Hne. destruct (Hsome role Hrole Hne) as [-> ->].
    split; by simplify_map_eq.
  - intros Hno. destruct (Hnone Hno) as [-> ->]. split; by simplify_map_eq.
  - set_solver.
  - intros k Hexp Hiat. unfold create_access_token, Jose.encode. cbn [token_claims].
    by rewrite !(lookup_insert_ne _ "iat"), !(lookup_insert_ne _ "exp").
Qed.

(** Alice, whose role is the support role, logs in with her password. *)
Lemma login_refresh_token_claims_witness :
  ∃ access refresh ty,
    @Auth.login sample_externals sample_settings sample_db
      {| login_email := "alice@x.com"; login_password := "Passw0rd1" |} 1000000000
    = Return (TokenWithRefresh access refresh ty)
    ∧ token_claims refresh !! "role" = Some (JStr "support")
    ∧ token_claims refresh !! "permissions" = Some (JList [JStr "users.*"])
    ∧ dom (token_claims refresh)
      = {["sub"; "user_id"; "role"; "permissions"; "exp"; "iat"]}.
Proof.
  eexists _, _, _. split; [reflexivity|].
  edestruct (@login_refresh_token_claims sample_externals sample_settings sample_db
               {| login_email := "alice@x.com"; login_password := "Passw0rd1" |}
               1000000000) as (u & Hq & _ & _ & _ & Hrole & _ & Hdom & _);
    [reflexivity|].
  change (Some alice = Some u) in Hq. injection Hq as <-.
  destruct (Hrole role_support) as [Hr Hp]; [reflexivity|done|].
  split; [exact Hr|]. split; [exact Hp|]. exact Hdom.
Defined.

(** C1 as stated fails: the refresh token Alice gets at login carries her
    role and her permission list. *)
Lemma login_refresh_token_carries_permissions :
  ∃ access refresh ty,
    @Auth.login sample_externals sample_settings sample_db
      {| login_email := "alice@x.com"; login_password := "Passw0rd1" |} 1000000000
    = Return (TokenWithRefresh access refresh ty)
    ∧ mfa_enabled alice = false
    ∧ token_claims refresh !! "permissions" = Some (JList [JStr "users.*"])
    ∧ token_claims refresh !! "role" = Some (JStr "support").
Proof.
  eexists _, _, _. split; [reflexivity|].
  split; [reflexivity|]. split; reflexivity.
Qed.

(** Whatever token the refresh endpoint returns, its claims are the
    subject and the user id under [exp] and [iat], nothing more. *)
Lemma refresh_token_claims `{Externals} (settings : Settings) (db : Database)
    (refresh : token)
    (now : Z) (access : token) (ty : string) :
  Auth.refresh_token settings db refresh now = Return (Token access ty) →
  dom (token_claims access) = {["sub"; "user_id"; "exp"; "iat"]}.
Proof.
  unfold Auth.refresh_token.
  destruct (decode_token _ _ _) as [[payload|]|e]; cbn; [|done..].
  destruct (payload_get payload "sub") as [user_email|]; [|done].
  destruct (query_user_by_email_claim db user_email) as [user|]; [|done].
  destruct (is_active user); cbn; [|done].
  intros [= <- _].
  rewrite create_access_token_dom, !dom_insert_L, dom_singleton_L. set_solver.
Qed.

(** C6, at a failing input.  Alice's role grants users.*; she logs in and,
    a minute later, presents the refresh token she was given.  The store
    still resolves her permissions to [users.*], but the session token the
    refresh endpoint mints carries no permissions claim and no role claim:
    only sub and user_id. *)
Theorem refresh_token_omits_permissions :
  ∃ access0 refresh access,
    @Auth.login sample_externals sample_settings sample_db
      {| login_email := "alice@x.com"; login_password := "Passw0rd1" |} 1000000000
    = Return (TokenWithRefresh access0 refresh "bearer")
    ∧ Auth.refresh_token (H := sample_externals) sample_settings sample_db refresh 1060000000
      = Return (Token access "bearer")
    ∧ PermissionService.get_user_permissions sample_db alice = ["users.*"]
    ∧ token_claims access0 !! "permissions" = Some (JList [JStr "users.*"])
    ∧ token_claims access !! "permissions" = None
    ∧ token_claims access !! "role" = None
    ∧ token_claims access !! "sub" = Some (JStr "alice@x.com")
    ∧ token_claims access !! "user_id" = Some (JStr "u-alice").
Proof.
  eexists _, _, _. split; [reflexivity|]. split; [reflexivity|].
  repeat split; reflexivity.
Qed.

(* ===================================================================== *)
(** * Theorems: the MFA challenge *)
(* ===================================================================== *)

(** C2, at a failing input.  Carol has MFA on.  She logs in, redeems the
    challenge token with a valid code and receives a session token.  That
    session token carries no [mfa_pending] marker, yet the verification
    endpoint accepts it in place of a challenge token and mints a new
    token pair. *)
Theorem verify_mfa_accepts_token_without_mfa_pending :
  ∃ challenge access refresh access' refresh',
    @Auth.login sample_externals sample_settings sample_db
      {| login_email := "carol@x.com"; login_password := "Passw0rd1" |} 1000000000
    = Return (MFALoginResponse true challenge "MFA verification required")
    ∧ token_claims challenge !! "mfa_pending" = Some (JBool true)
    ∧ @Mfa.verify_mfa sample_externals sample_settings sample_db
        {| temp_token := challenge; code := "JBSWY3" |} 1030000000
      = (Return (TokenWithRefresh access refresh "bearer"), sample_db)
    ∧ token_claims access !! "mfa_pending" = None
    ∧ @Mfa.verify_mfa sample_externals sample_settings sample_db
        {| temp_token := access; code := "JBSWY3" |} 1090000000
      = (Return (TokenWithRefresh access' refresh' "bearer"), sample_db).
Proof.
  eexists _, _, _, _, _. split; [reflexivity|]. split; [reflexivity|].
  split; [reflexivity|]. split; reflexivity.
Qed.

(* ===================================================================== *)
(** * Theorems: enumeration resistance *)
(* ===================================================================== *)

(** C3, at failing inputs.  Dave's account exists and is unverified: asking
    for a password reset for his address is answered with an error, while
    the same request against a store without his row gets the generic
    message.  Alice's account exists and is verified: asking to resend the
    verification mail is answered with an error, while the same request
    against a store without her row gets the generic message. *)
Theorem account_state_changes_response `{Externals} (fresh : string) (now : Z) :
  Auth.forgot_password sample_db_without_dave "dave@x.com" fresh now
  = (Return (Message "If that email exists, a reset link has been sent"),
     sample_db_without_dave)
  ∧ Auth.forgot_password sample_db "dave@x.com" fresh now
    = (Raise (HTTPException 400 "Please verify your email first"), sample_db)
  ∧ Auth.resend_verification sample_db_without_alice "alice@x.com" fresh now
    = (Return (Message "If that email exists, a verification link has been sent"),
       sample_db_without_alice)
  ∧ Auth.resend_verification sample_db "alice@x.com" fresh now
    = (Raise (HTTPException 400 "Email already verified"), sample_db).
Proof. repeat split; reflexivity. Qed.

(* ===================================================================== *)
(** * Theorems: the password hasher *)
(* ===================================================================== *)

(** C8, as amended.  For every password and every digest whose salt bcrypt
    cannot parse, verification does not return: the library's [ValueError]
    goes to the caller, and login on an account holding such a digest
    raises it too. *)
Theorem verify_password_malformed_digest `{Externals} (plain_password digest : string) :
  bcrypt_salt_ok digest = false →
  verify_password plain_password digest = Raise (ValueError "Invalid salt")
  ∧ ∀ settings db login_data now user,
      login_password login_data = plain_password →
      query_user_by_email db (login_email login_data) = Some user →
      hashed_password user = digest →
      Auth.login settings db login_data now = Raise (ValueError "Invalid salt").
Proof.
  intros Hsalt.
  assert (Hv : verify_password plain_password digest = Raise (ValueError "Invalid salt")).
  { unfold verify_password. by apply bcrypt_invalid_salt. }
  split; [exact Hv|].
  intros settings db login_data now user Hpw Hq Hdigest.
  unfold Auth.login. by rewrite Hq, Hpw, Hdigest, Hv.
Qed.

Lemma verify_password_malformed_digest_witness :
  @verify_password sample_externals "Passw0rd1" "not-a-bcrypt-digest"
  = Raise (ValueError "Invalid salt").
Proof.
  refine (proj1 (@verify_password_malformed_digest sample_externals
                   "Passw0rd1" "not-a-bcrypt-digest" _)).
  reflexivity.
Defined.

(** C8 as stated fails: a digest that is no hash output makes the
    verification raise instead of returning false. *)
Lemma verify_password_malformed_digest_raises :
  ¬ (∀ (E : Externals) (plain_password digest : string),
       bcrypt_salt_ok digest = false →
       verify_password plain_password digest = Return false).
Proof.
  intros Hclaim.
  specialize (Hclaim sample_externals "Passw0rd1" "not-a-bcrypt-digest" eq_refl).
  discriminate Hclaim.
Qed.

(* ===================================================================== *)
(** * Theorems: the store under [commit] *)
(* ===================================================================== *)

Section StoreFacts.

Lemma find_Some_holds {A : Type} (f : A → bool) (l : list A) (x : A) :
  List.find f l = Some x → f x = true ∧ x ∈ l.
Proof.
  induction l as [|y l IH]; cbn; [done|].
  destruct (f y) eqn:Hy.
  - intros [= ->]. split; [done | apply list_elem_of_here].
  - intros Hx. destruct (IH Hx) as [? ?]. split; [done | by apply list_elem_of_further].
Qed.

Lemma query_user_by_id_Some db i u :
  query_user_by_id db i = Some u → id u = i.
Proof.
  unfold query_user_by_id. intros Hq. apply find_Some_holds in Hq as [Hq _].
  by apply String.eqb_eq.
Qed.

Lemma query_user_by_email_Some db e u :
  query_user_by_email db e = Some u → email u = e.
Proof.
  unfold query_user_by_email. intros Hq. apply find_Some_holds in Hq as [Hq _].
  by apply String.eqb_eq.
Qed.

(** The row a commit writes is the row a later query by that key reads. *)
Lemma query_user_by_id_commit_same db u :
  is_Some (query_user_by_id db (id u)) →
  query_user_by_id (commit db u) (id u) = Some u.
Proof.
  unfold query_user_by_id, commit. cbn [users].
  induction (users db) as [|v us IH]; cbn; [by intros [? ?]|].
  destruct (String.eqb (id v) (id u)) eqn:Hv; cbn.
  - intros _. by rewrite String.eqb_refl.
  - rewrite Hv. exact IH.
Qed.

(** Rows under other keys are left as they were. *)
Lemma query_user_by_id_commit_other db u i :
  id u ≠ i → query_user_by_id (commit db u) i = query_user_by_id db i.
Proof.
  intros Hne. unfold query_user_by_id, commit. cbn [users].
  induction (users db) as [|v us IH]; cbn; [done|].
  destruct (String.eqb (id v) (id u)) eqn:Hv; cbn.
  - apply String.eqb_eq in Hv.
    rewrite (proj2 (String.eqb_neq (id u) i) Hne).
    by rewrite Hv, (proj2 (String.eqb_neq (id u) i) Hne).
  - by rewrite IH.
Qed.

(** With unique primary keys, a commit that keeps the email is seen by the
    query by email. *)
Lemma query_user_by_email_commit db u u' :
  NoDup (id <$> users db) →
  query_user_by_email db (email u) = Some u →
  id u' = id u → email u' = email u →
  query_user_by_email (commit db u') (email u) = Some u'.
Proof.
  unfold query_user_by_email, commit. cbn [users]. intros Hnd Hq Hid Hmail.
  induction (users db) as [|v us IH]; cbn in *; [done|].
  apply NoDup_cons in Hnd as [Hv Hnd].
  destruct (String.eqb (email v) (email u)) eqn:Hev.
  - injection Hq as ->. rewrite Hid, String.eqb_refl. cbn.
    by rewrite Hmail, String.eqb_refl.
  - destruct (String.eqb (id v) (id u')) eqn:Hiv.
    + exfalso. apply String.eqb_eq in Hiv. apply Hv.
      apply find_Some_holds in Hq as [_ Hin].
      rewrite Hiv, Hid. by apply list_elem_of_fmap_2.
    + cbn. rewrite Hev. by apply IH.
Qed.

End StoreFacts.

(* ===================================================================== *)
(** * Theorems: disabling MFA *)
(* ===================================================================== *)

(** C9.  Asking to disable MFA for a user whose MFA is off is answered
    with the error "MFA is not enabled" and leaves the store as it was.
    In particular, after a call that did disable MFA, the user the next
    request loads has MFA off (secret and backup codes cleared), and a
    second call gets that error and changes nothing. *)
Theorem disable_mfa_when_not_enabled `{Externals} (db : Database) (user : User)
    (password password' : string) :
  (mfa_enabled user = false →
   Mfa.disable_mfa db password user
   = (Raise (HTTPException 400 "MFA is not enabled"), db))
  ∧ (NoDup (id <$> users db) →
     query_user_by_email db (email user) = Some user →
     ∀ body db1,
       Mfa.disable_mfa db password user = (Return body, db1) →
       ∃ user1,
         query_user_by_email db1 (email user) = Some user1
         ∧ mfa_enabled user1 = false
         ∧ mfa_secret user1 = None
         ∧ mfa_backup_codes user1 = None
         ∧ Mfa.disable_mfa db1 password' user1
           = (Raise (HTTPException 400 "MFA is not enabled"), db1)).
Proof.
  assert (Hoff : ∀ d p u, mfa_enabled u = false →
            Mfa.disable_mfa d p u = (Raise (HTTPException 400 "MFA is not enabled"), d)).
  { intros d p u Hu. unfold Mfa.disable_mfa. by rewrite Hu. }
  split; [apply Hoff|].
  intros Hnd Hq body db1. unfold Mfa.disable_mfa.
  destruct (mfa_enabled user); cbn; [|done].
  destruct (verify_password password (hashed_password user)) as [ok|e]; [|done].
  destruct ok; cbn; [|done].
  intros [= _ <-].
  exists (set_mfa user false None None).
  split; [|split; [done|split; [done|split; [done|by apply Hoff]]]].
  unfold MFAService.disable_mfa. by apply query_user_by_email_commit.
Qed.

(** Alice never enabled MFA; Carol disables hers and asks again. *)
Lemma disable_mfa_when_not_enabled_witness :
  @Mfa.disable_mfa sample_externals sample_db "Passw0rd1" alice
  = (Raise (HTTPException 400 "MFA is not enabled"), sample_db)
  ∧ ∃ db1 carol1,
      @Mfa.disable_mfa sample_externals sample_db "Passw0rd1" carol
      = (Return (Message "MFA disabled successfully"), db1)
      ∧ query_user_by_email db1 "carol@x.com" = Some carol1
      ∧ @Mfa.disable_mfa sample_externals db1 "Passw0rd1" carol1
        = (Raise (HTTPException 400 "MFA is not enabled"), db1).
Proof.
  split.
  - refine (proj1 (@disable_mfa_when_not_enabled sample_externals sample_db alice
                     "Passw0rd1" "Passw0rd1") _).
    reflexivity.
  - eexists. 
    edestruct (proj2 (@disable_mfa_when_not_enabled sample_externals sample_db carol
                        "Passw0rd1" "Passw0rd1"))
      as (carol1 & Hq & _ & _ & _ & Hsecond).
    + by apply (bool_decide_unpack _).
    + reflexivity.
    + reflexivity.
    + exists carol1. split; [reflexivity|]. split; [exact Hq | exact Hsecond].
Defined.

(* ===================================================================== *)
(** * Theorems: backup codes *)
(* ===================================================================== *)

Section BackupCodes.

Import MFAService.

Context `{Externals}.

(** Removing a member succeeds, keeps only members, and leaves no copy
    behind when there was a single one. *)
Lemma list_remove_elem (h : string) (l : list string) :
  h ∈ l →
  ∃ l', list_remove h l = Return l'
        ∧ (∀ x, x ∈ l' → x ∈ l)
        ∧ (NoDup l → NoDup l' ∧ ∀ x, x ∈ l' ↔ x ∈ l ∧ x ≠ h).
Proof.
  induction l as [|y l IH]; [by intros ?%elem_of_nil|].
  intros Hin. cbn. destruct (String.eqb y h) eqn:Hy.
  - apply String.eqb_eq in Hy as ->. exists l. split; [done|]. split.
    + intros x Hx. by apply list_elem_of_further.
    + intros [Hh Hnd]%NoDup_cons. split; [done|]. intros x. split.
      * intros Hx. split; [by apply list_elem_of_further | by intros ->].
      * intros [[->|Hx]%elem_of_cons Hne]; done.
  - apply String.eqb_neq in Hy.
    apply elem_of_cons in Hin as [->|Hin]; [done|].
    destruct (IH Hin) as (l' & Hrm & Hsub & Hnd). exists (y :: l').
    rewrite Hrm. cbn. split; [done|]. split.
    + intros x [->|Hx]%elem_of_cons;
        [apply list_elem_of_here | by apply list_elem_of_further, Hsub].
    + intros [Hyl Hndl]%NoDup_cons. destruct (Hnd Hndl) as [Hnd' Hiff]. split.
      * apply NoDup_cons. split; [|done]. intros Hy'. by apply Hyl, Hsub.
      * intros x. rewrite !elem_of_cons, Hiff. split.
        -- intros [->|[Hx Hne]]; [by split; [left|] | by split; [right|]].
        -- intros [[->|Hx] Hne]; [by left | by right].
Qed.

(** A code whose hash is not stored is refused and nothing is written. *)
Lemma verify_user_backup_code_absent db user backup_code :
  hash_backup_code backup_code ∉ default [] (mfa_backup_codes user) →
  verify_user_backup_code db user backup_code = Return (false, db).
Proof.
  intros Hout. unfold verify_user_backup_code.
  destruct (negb (mfa_enabled user) || negb (codes_truthy (mfa_backup_codes user)));
    [done|].
  unfold verify_backup_code. by rewrite bool_decide_eq_false_2.
Qed.

(** The call never raises, and what it writes is the user's row with one
    occurrence of the hash taken out of the stored list. *)
Lemma verify_user_backup_code_outcome db user backup_code :
  verify_user_backup_code db user backup_code = Return (false, db)
  ∨ ∃ l l', mfa_backup_codes user = Some l
      ∧ hash_backup_code backup_code ∈ l
      ∧ list_remove (hash_backup_code backup_code) l = Return l'
      ∧ verify_user_backup_code db user backup_code
        = Return (true, commit db (set_mfa_backup_codes user (Some l'))).
Proof.
  unfold verify_user_backup_code.
  destruct (mfa_enabled user); cbn [negb orb]; [|by left].
  destruct (mfa_backup_codes user) as [l|] eqn:Hl; cbn; [|by left].
  unfold verify_backup_code.
  destruct (decide (hash_backup_code backup_code ∈ l)) as [Hin|Hout].
  - right. rewrite (bool_decide_eq_true_2 _ Hin).
    destruct (list_remove_elem _ _ Hin) as (l' & Hrm & _).
    exists l, l'. rewrite Hrm. by cbn.
  - left. by rewrite (bool_decide_eq_false_2 _ Hout).
Qed.




End BackupCodes.




(* ===================================================================== *)
(** * Further theorems: tokens and the authenticated user *)
(* ===================================================================== *)

Lemma create_access_token_default settings data now :
  create_access_token settings data None now
  = Jwt (ALGORITHM settings)
        (minted data now (timedelta_minutes (ACCESS_TOKEN_EXPIRE_MINUTES settings)))
        (SECRET_KEY settings).
Proof. reflexivity. Qed.

Lemma decode_token_minted `{Externals} settings data issued ttl now :
  timegm now ≤ timegm (issued + ttl) →
  Jose.other_claims_ok data now = true →
  decode_token settings
    (Jwt (ALGORITHM settings) (minted data issued ttl) (SECRET_KEY settings)) now
  = Return (Some (minted data issued ttl)).
Proof.
  intros Hle Hok. unfold decode_token. rewrite decode_own_token.
  by rewrite (proj2 (validate_minted data issued ttl now) (conj Hle Hok)).
Qed.

Lemma decode_token_minted_expired `{Externals} settings data issued ttl now :
  timegm (issued + ttl) < timegm now →
  Jose.int_TypeError (data !! "nbf") = false →
  decode_token settings
    (Jwt (ALGORITHM settings) (minted data issued ttl) (SECRET_KEY settings)) now
  = Return None.
Proof.
  intros Hlt Hnbf. unfold decode_token. rewrite decode_own_token.
  destruct (validate_minted_expired data issued ttl now Hlt Hnbf) as (e & -> & He).
  cbn. by rewrite He.
Qed.

(** The registered-claim checks pass on a claim set whose only registered
    claim is a string [sub]. *)
Lemma other_claims_ok_sub_only `{Externals} (data : claims) (e : string) now :
  data !! "sub" = Some (JStr e) →
  data !! "nbf" = None → data !! "aud" = None →
  data !! "jti" = None → data !! "at_hash" = None →
  Jose.other_claims_ok data now = true.
Proof.
  intros Hsub Hnbf Haud Hjti Hat. unfold Jose.other_claims_ok,
    Jose.check_int_claim, Jose.check_absent, Jose.check_str_claim.
  by rewrite Hsub, Hnbf, Haud, Hjti, Hat.
Qed.

(** A token that does not bear the process key under the configured
    algorithm is turned away with [None]. *)
Lemma decode_token_cases `{Externals} (settings : Settings) (t : token) (now : Z) :
  decode_token settings t now = Return None
  ∨ ∃ payload, t = Jwt (ALGORITHM settings) payload (SECRET_KEY settings).
Proof.
  unfold decode_token, Jose.decode.
  destruct t as [s|alg p k]; [by left|].
  destruct (decide (alg ∈ [ALGORITHM settings])) as [Halg|Halg];
    [rewrite (bool_decide_eq_true_2 _ Halg)
    | rewrite (bool_decide_eq_false_2 _ Halg); by left].
  apply list_elem_of_singleton in Halg as ->. cbn [negb].
  destruct (String.eqb k (SECRET_KEY settings)) eqn:Hk; [|by left].
  apply String.eqb_eq in Hk as ->. right. by exists p.
Qed.

(** A payload comes out of [decode_token] only for a token signed with
    the process key under the configured algorithm, and it is that
    token's, its claims validated. *)
Lemma decode_token_Some `{Externals} (settings : Settings) (t : token) (now : Z)
    (payload : claims) :
  decode_token settings t now = Return (Some payload) →
  t = Jwt (ALGORITHM settings) payload (SECRET_KEY settings)
  ∧ Jose.validate_claims payload now = Return tt.
Proof.
  destruct (decode_token_cases settings t now) as [->|[p ->]]; [done|].
  unfold decode_token. rewrite decode_own_token.
  destruct (Jose.validate_claims p now) as [[]|e] eqn:Hv; cbn.
  - by intros [= ->].
  - by destruct (is_JWTError e).
Qed.

Lemma decode_token_Some_own `{Externals} (settings : Settings) (t : token) (now : Z)
    (payload : claims) :
  decode_token settings t now = Return (Some payload) →
  t = Jwt (ALGORITHM settings) payload (SECRET_KEY settings).
Proof. by intros [? _]%decode_token_Some. Qed.



Section CurrentUser.

Context `{Externals}.

Variables (settings : Settings) (db : Database).

(** A minted token whose subject is the email of an active account
    authenticates as that account while it is valid. *)
Lemma get_current_user_minted (data : claims) (user : User) issued ttl now :
  data !! "sub" = Some (JStr (email user)) →
  Jose.other_claims_ok data now = true →
  timegm now ≤ timegm (issued + ttl) →
  query_user_by_email db (email user) = Some user →
  is_active user = true →
  get_current_user settings db
    (Jwt (ALGORITHM settings) (minted data issued ttl) (SECRET_KEY settings)) now
  = Return user.
Proof.
  intros Hsub Hok Hle Hq Hact. unfold get_current_user.
  rewrite decode_token_minted by done. cbn.
  unfold payload_get, minted. rewrite !lookup_insert_ne by done. rewrite Hsub.
  cbn. by rewrite Hq, Hact.
Qed.

Lemma refresh_token_minted (data : claims) (user : User) issued ttl now :
  data !! "sub" = Some (JStr (email user)) →
  Jose.other_claims_ok data now = true →
  timegm now ≤ timegm (issued + ttl) →
  query_user_by_email db (email user) = Some user →
  is_active user = true →
  Auth.refresh_token settings db
    (Jwt (ALGORITHM settings) (minted data issued ttl) (SECRET_KEY settings)) now
  = Return (Token (create_access_token settings
                     (<["user_id" := JStr (id user)]> {["sub" := JStr (email user)]})
                     None now) "bearer").
Proof.
  intros Hsub Hok Hle Hq Hact. unfold Auth.refresh_token.
  rewrite decode_token_minted by done. cbn.
  unfold payload_get, minted. rewrite !lookup_insert_ne by done. rewrite Hsub.
  cbn. by rewrite Hq, Hact.
Qed.

(** X5.  The user the dependency returns is an active account of the
    store, and it is the account whose email is the token's subject. *)
Theorem get_current_user_sound (credentials : token) (now : Z) (user : User) :
  get_current_user settings db credentials now = Return user →
  is_active user = true
  ∧ user ∈ users db
  ∧ ∃ payload, decode_token settings credentials now = Return (Some payload)
               ∧ payload !! "sub" = Some (JStr (email user)).
Proof.
  unfold get_current_user.
  destruct (decode_token settings credentials now) as [[payload|]|e']; cbn; [|done..].
  unfold payload_get.
  destruct (payload !! "sub") as [[| | |e|]|] eqn:Hsub; try done.
  cbn. destruct (query_user_by_email db e) as [u|] eqn:Hq; [|done].
  destruct (is_active u) eqn:Hact; cbn; [|done].
  intros [= <-]. split; [done|].
  pose proof (query_user_by_email_Some _ _ _ Hq) as Hmail.
  unfold query_user_by_email in Hq. apply find_Some_holds in Hq as [_ Hin].
  split; [done|]. exists payload. by rewrite Hmail.
Qed.

(** X6.  Optional authentication returns the same user as the mandatory
    one whenever that succeeds; it also returns an account the mandatory
    one turns away as inactive. *)
Theorem get_current_user_optional_vs_mandatory (credentials : token) (now : Z) :
  (∀ user, get_current_user settings db credentials now = Return user →
           get_current_user_optional settings db (Some credentials) now = Some user)
  ∧ (get_current_user settings db credentials now
     = Raise (HTTPException 403 "User account is inactive") →
     ∃ user, get_current_user_optional settings db (Some credentials) now = Some user
             ∧ is_active user = false).
Proof.
  unfold get_current_user, get_current_user_optional.
  destruct (decode_token settings credentials now) as [[payload|]|e] eqn:Hdec; cbn;
    [|by split|apply decode_token_Raise in Hdec as [-> _]; by split].
  destruct (payload_get payload "sub") as [user_email|]; [|by split].
  destruct (query_user_by_email_claim db user_email) as [u|]; [|by split].
  destruct (is_active u) eqn:Hact; cbn; split; try done.
  - by intros user [= <-].
  - intros _. by exists u.
Qed.

End CurrentUser.

Lemma get_current_user_sound_witness :
  is_active alice = true ∧ alice ∈ users sample_db.
Proof.
  destruct (@get_current_user_sound sample_externals sample_settings sample_db
              (create_access_token sample_settings {["sub" := JStr "alice@x.com"]}
                 None 1000000000) 1000000000 alice) as (Hact & Hin & _).
  - reflexivity.
  - by split.
Defined.

(** Alice's account has been deactivated; her token still names her. *)
Lemma get_current_user_optional_vs_mandatory_witness :
  let db := commit sample_db (set_is_active alice false) in
  let t := create_access_token sample_settings {["sub" := JStr "alice@x.com"]}
             None 1000000000 in
  get_current_user (H := sample_externals) sample_settings db t 1000000000
  = Raise (HTTPException 403 "User account is inactive")
  ∧ ∃ user,
      get_current_user_optional (H := sample_externals) sample_settings db (Some t)
        1000000000
      = Some user
      ∧ is_active user = false.
Proof.
  intros db t. split; [reflexivity|].
  apply (proj2 (@get_current_user_optional_vs_mandatory sample_externals sample_settings
                  db t 1000000000)).
  reflexivity.
Defined.

(** Lookups in a claim set written as inserts over a singleton. *)
Ltac map_lookup :=
  repeat (rewrite lookup_insert_ne by done);
  first [ done
        | by rewrite lookup_insert_eq
        | by rewrite lookup_singleton_eq
        | by rewrite lookup_singleton_ne
        | by rewrite lookup_empty ].

(** What a successful login establishes about the account. *)
Lemma login_Return `{Externals} settings db login_data now resp :
  Auth.login settings db login_data now = Return resp →
  ∃ user,
    query_user_by_email db (login_email login_data) = Some user
    ∧ verify_password (login_password login_data) (hashed_password user) = Return true
    ∧ is_active user = true
    ∧ email_verified user = true
    ∧ ((mfa_enabled user = true
        ∧ resp = MFALoginResponse true
                   (create_access_token settings
                      (<["mfa_pending" := JBool true]>
                         (<["user_id" := JStr (id user)]> {["sub" := JStr (email user)]}))
                      (Some (timedelta_minutes 5)) now)
                   "MFA verification required")
       ∨ (mfa_enabled user = false
          ∧ ∃ role_name permissions,
              let token_data : claims :=
                <["permissions" := JList (JStr <$> permissions)]>
                  (<["role" := JStr role_name]>
                     (<["user_id" := JStr (id user)]> {["sub" := JStr (email user)]})) in
              resp = TokenWithRefresh
                       (create_access_token settings token_data None now)
                       (create_refresh_token settings token_data now) "bearer")).
Proof.
  unfold Auth.login. intros Hlogin.
  destruct (query_user_by_email db (login_email login_data)) as [user|] eqn:Hq; [|done].
  destruct (verify_password _ _) as [ok|e] eqn:Hpw; cbn in Hlogin; [|done].
  destruct ok; cbn in Hlogin; [|done].
  destruct (is_active user) eqn:Hact; cbn in Hlogin; [|done].
  destruct (email_verified user) eqn:Hver; cbn in Hlogin; [|done].
  exists user. split; [done|]. split; [done|]. split; [done|]. split; [done|].
  destruct (mfa_enabled user) eqn:Hmfa.
  - left. split; [done|]. by injection Hlogin as <-.
  - right. split; [done|].
    destruct (match role_id user with Some _ => _ | None => _ end)
      as [role_name permissions].
    exists role_name, permissions. by injection Hlogin as <-.
Qed.

(** X2.  The session token of a successful password login authenticates
    as the account that logged in, at every time up to the second the
    token expires in. *)
Theorem login_token_authenticates `{Externals} (settings : Settings) (db : Database)
    (login_data : LoginRequest) (now now' : Z) (access refresh : token) (ty : string) :
  Auth.login settings db login_data now = Return (TokenWithRefresh access refresh ty) →
  timegm now' ≤ timegm (now + timedelta_minutes (ACCESS_TOKEN_EXPIRE_MINUTES settings)) →
  ∃ user, query_user_by_email db (login_email login_data) = Some user
          ∧ get_current_user settings db access now' = Return user.
Proof.
  intros Hlogin Hle.
  destruct (login_Return _ _ _ _ _ Hlogin)
    as (user & Hq & _ & Hact & _ & [[_ ?]|(_ & rn & ps & Hresp)]); [done|].
  cbn zeta in Hresp. injection Hresp as -> _ _.
  exists user. split; [done|].
  rewrite create_access_token_default.
  pose proof (query_user_by_email_Some _ _ _ Hq) as Hmail.
  apply get_current_user_minted;
    [map_lookup | eapply other_claims_ok_sub_only; map_lookup | done
    | by rewrite Hmail | done].
Qed.

Lemma login_token_authenticates_witness :
  ∃ access refresh,
    @Auth.login sample_externals sample_settings sample_db
      {| login_email := "alice@x.com"; login_password := "Passw0rd1" |} 1000000000
    = Return (TokenWithRefresh access refresh "bearer")
    ∧ ∃ user, query_user_by_email sample_db "alice@x.com" = Some user
              ∧ get_current_user (H := sample_externals) sample_settings sample_db access 2800000000
                = Return user.
Proof.
  eexists _, _. split; [reflexivity|].
  eapply (@login_token_authenticates sample_externals sample_settings sample_db
            {| login_email := "alice@x.com"; login_password := "Passw0rd1" |}
            1000000000 2800000000).
  - reflexivity.
  - by vm_compute.
Defined.

(** X3.  The refresh token of a successful password login is accepted by
    the refresh endpoint until the second it expires in, and buys a
    session token for the same account that carries its subject and user
    id. *)
Theorem login_refresh_token_refreshes `{Externals} (settings : Settings) (db : Database)
    (login_data : LoginRequest) (now now' : Z) (access refresh : token) (ty : string) :
  Auth.login settings db login_data now = Return (TokenWithRefresh access refresh ty) →
  0 < REFRESH_TOKEN_EXPIRE_DAYS settings →
  timegm now' ≤ timegm (now + timedelta_days (REFRESH_TOKEN_EXPIRE_DAYS settings)) →
  ∃ user,
    query_user_by_email db (login_email login_data) = Some user
    ∧ Auth.refresh_token settings db refresh now'
      = Return (Token (create_access_token settings
                         (<["user_id" := JStr (id user)]> {["sub" := JStr (email user)]})
                         None now') "bearer").
Proof.
  intros Hlogin Hdays Hle.
  destruct (login_Return _ _ _ _ _ Hlogin)
    as (user & Hq & _ & Hact & _ & [[_ ?]|(_ & rn & ps & Hresp)]); [done|].
  cbn zeta in Hresp. injection Hresp as _ -> _.
  exists user. split; [done|].
  unfold create_refresh_token.
  rewrite create_access_token_claims by (unfold timedelta_days; lia).
  pose proof (query_user_by_email_Some _ _ _ Hq) as Hmail.
  apply refresh_token_minted;
    [map_lookup | eapply other_claims_ok_sub_only; map_lookup | done
    | by rewrite Hmail | done].
Qed.

Lemma login_refresh_token_refreshes_witness :
  ∃ access refresh,
    @Auth.login sample_externals sample_settings sample_db
      {| login_email := "alice@x.com"; login_password := "Passw0rd1" |} 1000000000
    = Return (TokenWithRefresh access refresh "bearer")
    ∧ ∃ user, query_user_by_email sample_db "alice@x.com" = Some user
        ∧ Auth.refresh_token (H := sample_externals) sample_settings sample_db refresh 86400000000
          = Return (Token (create_access_token sample_settings
                             (<["user_id" := JStr (id user)]>
                                {["sub" := JStr (email user)]})
                             None 86400000000) "bearer").
Proof.
  eexists _, _. split; [reflexivity|].
  eapply (@login_refresh_token_refreshes sample_externals sample_settings sample_db
            {| login_email := "alice@x.com"; login_password := "Passw0rd1" |}
            1000000000 86400000000).
  - reflexivity.
  - reflexivity.
  - by vm_compute.
Defined.

(** X4.  The dependency does not look at [mfa_pending]: the challenge
    token handed out after the password step authenticates as the account
    for the five minutes it lives, before any code has been verified.  The
    refresh token of a password login authenticates the same way for its
    whole lifetime. *)
Theorem challenge_token_authenticates `{Externals} (settings : Settings) (db : Database)
    (login_data : LoginRequest) (now now' : Z) :
  (∀ required challenge message,
     Auth.login settings db login_data now
     = Return (MFALoginResponse required challenge message) →
     timegm now' ≤ timegm (now + timedelta_minutes 5) →
     ∃ user, query_user_by_email db (login_email login_data) = Some user
             ∧ mfa_enabled user = true
             ∧ get_current_user settings db challenge now' = Return user)
  ∧ (∀ access refresh ty,
       Auth.login settings db login_data now = Return (TokenWithRefresh access refresh ty) →
       0 < REFRESH_TOKEN_EXPIRE_DAYS settings →
       timegm now' ≤ timegm (now + timedelta_days (REFRESH_TOKEN_EXPIRE_DAYS settings)) →
       ∃ user, query_user_by_email db (login_email login_data) = Some user
               ∧ get_current_user settings db refresh now' = Return user).
Proof.
  split.
  - intros required challenge message Hlogin Hle.
    destruct (login_Return _ _ _ _ _ Hlogin)
      as (user & Hq & _ & Hact & _ & [[Hmfa Hresp]|(_ & rn & ps & ?)]); [|done].
    injection Hresp as _ -> _.
    exists user. split; [done|]. split; [done|].
    rewrite create_access_token_claims by done.
    pose proof (query_user_by_email_Some _ _ _ Hq) as Hmail.
    apply get_current_user_minted;
      [map_lookup | eapply other_claims_ok_sub_only; map_lookup | done
      | by rewrite Hmail | done].
  - intros access refresh ty Hlogin Hdays Hle.
    destruct (login_Return _ _ _ _ _ Hlogin)
      as (user & Hq & _ & Hact & _ & [[_ ?]|(_ & rn & ps & Hresp)]); [done|].
    cbn zeta in Hresp. injection Hresp as _ -> _.
    exists user. split; [done|].
    unfold create_refresh_token.
    rewrite create_access_token_claims by (unfold timedelta_days; lia).
    pose proof (query_user_by_email_Some _ _ _ Hq) as Hmail.
    apply get_current_user_minted;
      [map_lookup | eapply other_claims_ok_sub_only; map_lookup | done
      | by rewrite Hmail | done].
Qed.

(** Carol has MFA on: her challenge token opens a session a minute after
    the password step. *)
Lemma challenge_token_authenticates_witness :
  ∃ challenge,
    @Auth.login sample_externals sample_settings sample_db
      {| login_email := "carol@x.com"; login_password := "Passw0rd1" |} 1000000000
    = Return (MFALoginResponse true challenge "MFA verification required")
    ∧ ∃ user, query_user_by_email sample_db "carol@x.com" = Some user
              ∧ mfa_enabled user = true
              ∧ get_current_user (H := sample_externals) sample_settings sample_db challenge 1060000000
                = Return user.
Proof.
  eexists. split; [reflexivity|].
  eapply (proj1 (@challenge_token_authenticates sample_externals sample_settings
                   sample_db
                   {| login_email := "carol@x.com"; login_password := "Passw0rd1" |}
                   1000000000 1060000000)).
  - reflexivity.
  - by vm_compute.
Defined.

(* ===================================================================== *)
(** * Further theorems: roles and permissions *)
(* ===================================================================== *)

(** X7.  A user without a role, or whose [role_id] points at no role row,
    resolves to the empty permission list and is refused every
    permission. *)
Theorem no_role_no_permission (db : Database) (user : User) :
  user_role db user = None →
  PermissionService.get_user_permissions db user = []
  ∧ ∀ requested, PermissionService.user_has_permission db user requested = false.
Proof.
  intros Hrole.
  assert (Hperms : PermissionService.get_user_permissions db user = []).
  { unfold PermissionService.get_user_permissions. by rewrite Hrole. }
  split; [done|]. intros requested.
  apply has_permission_false; [| |intros _]; rewrite Hperms; apply not_elem_of_nil.
Qed.

(** Dave has no role. *)
Lemma no_role_no_permission_witness :
  PermissionService.get_user_permissions sample_db dave = []
  ∧ ∀ requested, PermissionService.user_has_permission sample_db dave requested = false.
Proof. apply no_role_no_permission. reflexivity. Defined.

Lemma string_app_length (s t : string) :
  String.length (s +:+ t) = (String.length s + String.length t)%nat.
Proof.
  induction s as [|a s IH]; [done|].
  change (S (String.length (s +:+ t)) = S (String.length s + String.length t)).
  by rewrite IH.
Qed.

Lemma string_app_inv_tail (s t u : string) : s +:+ u = t +:+ u → s = t.
Proof.
  revert t. induction s as [|a s IH]; intros [|b t] Heq.
  - done.
  - apply (f_equal String.length) in Heq.
    rewrite !string_app_length in Heq. cbn in Heq. lia.
  - apply (f_equal String.length) in Heq.
    rewrite !string_app_length in Heq. cbn in Heq. lia.
  - change (String a (s +:+ u) = String b (t +:+ u)) in Heq.
    injection Heq as -> Heq. by rewrite (IH t Heq).
Qed.

(** X8.  A role that grants exactly one category wildcard [c.*], the
    system wildcard excepted, passes the wildcard's own name and the names
    whose part before the first dot is [c], and nothing else. *)
Theorem category_wildcard_scope (db : Database) (user : User) (role : Role)
    (c requested : string) :
  user_role db user = Some role →
  (∀ p, p ∈ perm_name <$> role_permissions role ↔ p = c +:+ ".*") →
  c ≠ "system" →
  PermissionService.user_has_permission db user requested = true
  ↔ requested = c +:+ ".*"
    ∨ (contains "."%char requested = true ∧ split_head "."%char requested = c).
Proof.
  intros Hrole Hexact Hc.
  assert (Hperms : ∀ p, p ∈ PermissionService.get_user_permissions db user
                        ↔ p = c +:+ ".*").
  { intros p. unfold PermissionService.get_user_permissions. by rewrite Hrole. }
  rewrite has_permission_spec, !Hperms. split.
  - intros [Hsys|[Hreq|[Hdot Hcat]]].
    + exfalso. apply Hc. symmetry. by apply (string_app_inv_tail _ _ ".*").
    + by left.
    + right. split; [done|]. by apply (string_app_inv_tail _ _ ".*").
  - intros [Hreq|[Hdot Hcat]]; [by right; left|].
    right; right. split; [done|]. by rewrite Hcat.
Qed.

(** Alice's role grants users.* only. *)
Lemma category_wildcard_scope_witness :
  PermissionService.user_has_permission sample_db alice "users.export.csv" = true
  ↔ "users.export.csv" = "users" +:+ ".*"
    ∨ (contains "."%char "users.export.csv" = true
       ∧ split_head "."%char "users.export.csv" = "users").
Proof.
  apply (category_wildcard_scope sample_db alice role_support).
  - reflexivity.
  - intros p. cbn. rewrite list_elem_of_singleton. reflexivity.
  - discriminate.
Defined.

Section RoleStore.

Lemma query_role_by_id_Some db r role :
  query_role_by_id db r = Some role → role_pk role = r.
Proof.
  unfold query_role_by_id. intros Hq. apply find_Some_holds in Hq as [Hq _].
  by apply Z.eqb_eq.
Qed.

Lemma query_role_by_id_remove_other (rs : list Role) (role : Role) (r : Z) :
  r ≠ role_pk role →
  List.find (fun ro => role_pk ro =? r) (remove_role rs role)
  = List.find (fun ro => role_pk ro =? r) rs.
Proof.
  intros Hne. induction rs as [|v rs IH]; cbn; [done|].
  destruct (Z.eqb_spec (role_pk v) (role_pk role)) as [Heq|Hneq].
  - rewrite Heq. by rewrite (proj2 (Z.eqb_neq (role_pk role) r)) by done.
  - cbn. by rewrite IH.
Qed.

Lemma query_role_by_id_remove_same (rs : list Role) (role : Role) :
  NoDup (role_pk <$> rs) →
  List.find (fun ro => role_pk ro =? role_pk role) (remove_role rs role) = None.
Proof.
  induction rs as [|v rs IH]; cbn; [done|].
  intros [Hv Hnd]%NoDup_cons.
  destruct (Z.eqb_spec (role_pk v) (role_pk role)) as [Heq|Hneq].
  - destruct (List.find _ rs) as [w|] eqn:Hw; [|done].
    exfalso. apply find_Some_holds in Hw as [Hpk Hin]. apply Z.eqb_eq in Hpk.
    apply Hv. rewrite Heq, <- Hpk. by apply list_elem_of_fmap_2.
  - cbn. rewrite (proj2 (Z.eqb_neq _ _) Hneq). by apply IH.
Qed.

Lemma count_users_with_role_zero db r u :
  count_users_with_role db r = 0%nat → u ∈ users db → role_id u ≠ Some r.
Proof.
  unfold count_users_with_role. intros Hcount Hin Hrole.
  assert (Hmem : u ∈ filter (fun u => role_id u = Some r) (users db))
    by by apply list_elem_of_filter.
  destruct (filter _ (users db)); [by apply elem_of_nil in Hmem | done].
Qed.

End RoleStore.

(** X10.  Deleting a role never touches a system role or a role some user
    is assigned to, and a refused request leaves the store as it was.
    When the deletion goes through, the user rows are unchanged, every
    user resolves to the same role as before, and (primary keys being
    unique) the deleted key no longer names a role. *)
Theorem delete_role_keeps_users_roles (db db' : Database) (role_id_ : Z)
    (result : py_result response) :
  delete_role db role_id_ = (result, db') →
  (∀ e, result = Raise e → db' = db)
  ∧ (∀ body, result = Return body →
       ∃ role,
         query_role_by_id db role_id_ = Some role
         ∧ is_system_role role = false
         ∧ (∀ u, u ∈ users db → role_id u ≠ Some role_id_)
         ∧ users db' = users db
         ∧ (∀ u, u ∈ users db → user_role db' u = user_role db u)
         ∧ (NoDup (role_pk <$> roles db) → query_role_by_id db' role_id_ = None)).
Proof.
  unfold delete_role.
  destruct (query_role_by_id db role_id_) as [role|] eqn:Hq;
    [|intros [= <- <-]; by split].
  pose proof (query_role_by_id_Some _ _ _ Hq) as Hpk.
  destruct (is_system_role role) eqn:Hsys; [intros [= <- <-]; by split|].
  destruct (Nat.ltb_spec 0 (count_users_with_role db (role_pk role))) as [Hpos|Hzero];
    [intros [= <- <-]; by split|].
  intros [= <- <-]. split; [done|]. intros body _.
  exists role. split; [done|]. split; [done|].
  assert (Hnone : ∀ u, u ∈ users db → role_id u ≠ Some role_id_).
  { intros u Hin. rewrite <- Hpk. apply (count_users_with_role_zero db); [lia|done]. }
  split; [done|]. split; [done|]. split.
  - intros u Hin. unfold user_role.
    destruct (role_id u) as [r|] eqn:Hr; [|done].
    unfold query_role_by_id, delete_role_row. cbn [roles].
    apply query_role_by_id_remove_other. rewrite Hpk. intros ->.
    by apply (Hnone u Hin).
  - intros Hnd. unfold query_role_by_id, delete_role_row. cbn [roles].
    rewrite <- Hpk. by apply query_role_by_id_remove_same.
Qed.

(** The auditor role has no users and goes; the viewer role has two and
    stays. *)
Lemma delete_role_keeps_users_roles_witness :
  ∃ body db',
    delete_role sample_db_with_auditor 4 = (Return body, db')
    ∧ users db' = users sample_db_with_auditor
    ∧ query_role_by_id db' 4 = None
    ∧ ∃ e, delete_role sample_db_with_auditor 3 = (Raise e, sample_db_with_auditor).
Proof.
  eexists _, _. split; [reflexivity|].
  edestruct (delete_role_keeps_users_roles sample_db_with_auditor _ 4 _ eq_refl)
    as [_ Hok].
  destruct (Hok _ eq_refl) as (role & _ & _ & _ & Husers & _ & Hgone).
  split; [exact Husers|]. split.
  - apply Hgone. by apply (bool_decide_unpack _).
  - eexists. reflexivity.
Defined.

(** X9.  Assigning a role fails with a [ValueError] and changes nothing
    when the user or the role does not exist.  When both exist, the user's
    row carries the new role, and the very next resolution of that user's
    permissions gives the names granted to that role. *)
Theorem assign_role_to_user_takes_effect (db : Database) (user_id : string)
    (role_id_ : Z) :
  (query_user_by_id db user_id = None ∨ query_role_by_id db role_id_ = None →
   ∃ msg, assign_role_to_user user_id role_id_ db = (Raise (ValueError msg), db))
  ∧ (∀ user role,
       query_user_by_id db user_id = Some user →
       query_role_by_id db role_id_ = Some role →
       ∃ db' user',
         assign_role_to_user user_id role_id_ db = (Return tt, db')
         ∧ query_user_by_id db' user_id = Some user'
         ∧ role_id user' = Some role_id_
         ∧ PermissionService.get_user_permissions db' user'
           = perm_name <$> role_permissions role).
Proof.
  unfold assign_role_to_user. split.
  - intros [Hu|Hr].
    + rewrite Hu. by eexists.
    + destruct (query_user_by_id db user_id); rewrite ?Hr; by eexists.
  - intros user role Hu Hr. rewrite Hu, Hr.
    exists (commit db (set_role_id user (Some role_id_))),
           (set_role_id user (Some role_id_)).
    split; [done|].
    pose proof (query_user_by_id_Some _ _ _ Hu) as Hid.
    split; [|split; [done|]].
    + rewrite <- Hid.
      apply (query_user_by_id_commit_same db (set_role_id user (Some role_id_))).
      cbn. by rewrite Hid, Hu.
    + unfold PermissionService.get_user_permissions, user_role.
      cbn [role_id set_role_id].
      change (query_role_by_id (commit db (set_role_id user (Some role_id_))) role_id_)
        with (query_role_by_id db role_id_).
      by rewrite Hr.
Qed.

(** Dave, who had no role, is made a viewer. *)
Lemma assign_role_to_user_takes_effect_witness :
  ∃ db' dave',
    assign_role_to_user "u-dave" 3 sample_db = (Return tt, db')
    ∧ query_user_by_id db' "u-dave" = Some dave'
    ∧ role_id dave' = Some 3
    ∧ PermissionService.get_user_permissions db' dave' = ["users.read"].
Proof.
  apply (proj2 (assign_role_to_user_takes_effect sample_db "u-dave" 3) dave role_viewer);
    reflexivity.
Defined.

(* ===================================================================== *)
(** * Further theorems: the MFA life cycle *)
(* ===================================================================== *)

Section MfaFacts.

Import MFAService.

Context `{Externals}.

Lemma verify_user_totp_enabled user code_ now :
  verify_user_totp user code_ now = Return true → mfa_enabled user = true.
Proof.
  unfold verify_user_totp. destruct (mfa_enabled user); [done|]. cbn. discriminate.
Qed.

Lemma verify_user_backup_code_true db user code_ db' :
  verify_user_backup_code db user code_ = Return (true, db') →
  mfa_enabled user = true
  ∧ hash_backup_code code_ ∈ default [] (mfa_backup_codes user).
Proof.
  intros Hok.
  destruct (verify_user_backup_code_outcome db user code_)
    as [Hno|(l & l' & Hl & Hin & _ & _)]; [congruence|].
  split; [|by rewrite Hl].
  unfold verify_user_backup_code in Hok.
  destruct (mfa_enabled user); [done|]. cbn in Hok. discriminate.
Qed.

(** A stored hash verifies its code, whatever else is stored. *)
Lemma verify_user_backup_code_present db user code_ :
  mfa_enabled user = true →
  hash_backup_code code_ ∈ default [] (mfa_backup_codes user) →
  ∃ db', verify_user_backup_code db user code_ = Return (true, db').
Proof.
  intros Hon Hin.
  destruct (verify_user_backup_code_outcome db user code_)
    as [Hno|(l & l' & _ & _ & _ & Hyes)]; [|by eexists].
  exfalso. unfold verify_user_backup_code in Hno. rewrite Hon in Hno.
  destruct (mfa_backup_codes user) as [l|]; cbn in *; [|by apply elem_of_nil in Hin].
  unfold verify_backup_code in Hno. rewrite (bool_decide_eq_true_2 _ Hin) in Hno.
  destruct (list_remove_elem _ _ Hin) as (l' & Hrm & _).
  rewrite Hrm in Hno. cbn in Hno. discriminate.
Qed.

End MfaFacts.

(** X11.  The verification endpoint mints tokens only for a user of the
    store who has MFA enabled and whose code either passed the TOTP check
    (the store is then untouched) or had its hash among the stored backup
    codes.  What it mints is a bearer pair for that user marked
    [mfa_verified]. *)
Theorem verify_mfa_sound `{Externals} (settings : Settings) (db db' : Database)
    (request : MFAVerifyRequest) (now : Z) (body : response) :
  Mfa.verify_mfa settings db request now = (Return body, db') →
  ∃ user,
    query_user_by_id db (id user) = Some user
    ∧ mfa_enabled user = true
    ∧ ((MFAService.verify_user_totp user (code request) now = Return true ∧ db' = db)
       ∨ MFAService.hash_backup_code (code request)
           ∈ default [] (mfa_backup_codes user))
    ∧ ∃ access refresh,
        body = TokenWithRefresh access refresh "bearer"
        ∧ token_claims access !! "sub" = Some (JStr (email user))
        ∧ token_claims access !! "user_id" = Some (JStr (id user))
        ∧ token_claims access !! "mfa_verified" = Some (JBool true).
Proof.
  unfold Mfa.verify_mfa.
  destruct (decode_token _ _ _) as [[payload|]|e]; [|done..].
  destruct (size payload =? 0)%nat; [done|].
  destruct (payload_get payload "user_id") as [user_id|]; [|done].
  destruct (negb (truthy user_id)); [done|].
  destruct (query_user_by_id_claim db user_id) as [user|] eqn:Hq; [|done].
  assert (Hrow : query_user_by_id db (id user) = Some user).
  { destruct user_id; try done. cbn in Hq.
    by rewrite (query_user_by_id_Some _ _ _ Hq). }
  destruct (MFAService.verify_user_totp user (code request) now) as [[]|e] eqn:Htotp;
    [| |done].
  - cbn. intros [= <- <-]. exists user. split; [done|].
    split; [by eapply verify_user_totp_enabled|]. split; [by left|].
    eexists _, _. split; [done|].
    rewrite !create_access_token_lookup by done. repeat split; map_lookup.
  - destruct (MFAService.verify_user_backup_code db user (code request))
      as [[[] db2]|e] eqn:Hbackup; [| |done]; cbn; [|done].
    intros [= <- <-].
    apply verify_user_backup_code_true in Hbackup as [Hon Hin].
    exists user. split; [done|]. split; [done|]. split; [by right|].
    eexists _, _. split; [done|].
    rewrite !create_access_token_lookup by done. repeat split; map_lookup.
Qed.

Lemma verify_mfa_sound_witness :
  ∃ user,
    query_user_by_id sample_db (id user) = Some user ∧ mfa_enabled user = true.
Proof.
  edestruct (@verify_mfa_sound sample_externals sample_settings sample_db sample_db
               {| temp_token :=
                    create_access_token sample_settings
                      (<["mfa_pending" := JBool true]>
                         (<["user_id" := JStr "u-carol"]>
                            {["sub" := JStr "carol@x.com"]}))
                      (Some (timedelta_minutes 5)) 1000000000;
                  code := "JBSWY3" |} 1030000000) as (user & Hrow & Hon & _).
  - reflexivity.
  - exists user. by split.
Defined.

(** X12.  The enable endpoint leaves the store unchanged unless MFA was
    off and the code verifies against the submitted secret.  When it goes
    through (and base64 decoding undoes the encoding of the secret, which
    is not empty), the user's row has MFA on, login-time TOTP checks run
    against that secret, and every one of the freshly generated backup
    codes verifies. *)
Theorem enable_mfa_round_trip `{Externals} (b64encode : string → string)
    (db db' : Database) (secret code_ : string) (current_user : User)
    (fresh_codes : list string) (now : Z) (result : py_result response) :
  enable_mfa b64encode db secret code_ current_user fresh_codes now = (result, db') →
  (∀ e, result = Raise e → db' = db)
  ∧ (∀ body, result = Return body →
       mfa_enabled current_user = false
       ∧ MFAService.verify_totp secret code_ 1 now = true
       ∧ (b64decode (b64encode secret) = Return secret →
          b64encode secret ≠ "" →
          query_user_by_id db (id current_user) = Some current_user →
          ∃ user',
            query_user_by_id db' (id current_user) = Some user'
            ∧ mfa_enabled user' = true
            ∧ (∀ c t, MFAService.verify_user_totp user' c t
                      = Return (MFAService.verify_totp secret c 1 t))
            ∧ ∀ c, c ∈ fresh_codes →
                ∃ db'', MFAService.verify_user_backup_code db' user' c
                        = Return (true, db''))).
Proof.
  unfold enable_mfa.
  destruct (mfa_enabled current_user) eqn:Hoff; [intros [= <- <-]; by split|].
  destruct (MFAService.verify_totp secret code_ 1 now) eqn:Hcode; cbn [negb];
    [|intros [= <- <-]; by split].
  intros [= <- <-]. split; [done|]. intros body _.
  split; [done|]. split; [done|].
  intros Hb64 Hne Hrow. unfold service_enable_mfa, encrypt_secret.
  eexists. split.
  { apply (query_user_by_id_commit_same db
             (set_mfa current_user true (Some (b64encode secret))
                (Some (MFAService.hash_backup_code <$> fresh_codes)))).
    cbn. by rewrite Hrow. }
  split; [done|]. split.
  - intros c t. unfold MFAService.verify_user_totp, MFAService.decrypt_secret. cbn.
    rewrite (proj2 (String.eqb_neq _ _) Hne). cbn. by rewrite Hb64.
  - intros c Hc. apply verify_user_backup_code_present; [done|].
    cbn. by apply list_elem_of_fmap_2.
Qed.

(** Alice turns MFA on with the secret and code her authenticator shows. *)
Lemma enable_mfa_round_trip_witness :
  ∃ db' alice',
    @enable_mfa sample_externals (fun s => s) sample_db "NBSWY3DPEHPK3PXP" "NBSWY3"
      alice ["AAAA2222"; "BBBB3333"] 1000000000
    = (Return (Message "MFA enabled successfully"), db')
    ∧ query_user_by_id db' "u-alice" = Some alice'
    ∧ mfa_enabled alice' = true
    ∧ ∃ db'', @MFAService.verify_user_backup_code sample_externals db' alice' "BBBB3333"
              = Return (true, db'').
Proof.
  edestruct (@enable_mfa_round_trip sample_externals (fun s => s) sample_db _
               "NBSWY3DPEHPK3PXP" "NBSWY3" alice ["AAAA2222"; "BBBB3333"] 1000000000
               _ eq_refl) as [_ Hok].
  destruct (Hok _ eq_refl) as (_ & _ & Hstate).
  assert (Hne : "NBSWY3DPEHPK3PXP" ≠ "") by discriminate.
  destruct (Hstate eq_refl Hne eq_refl) as (alice' & Hrow & Hon & _ & Hcodes).
  eexists _, alice'. split; [reflexivity|]. split; [exact Hrow|]. split; [exact Hon|].
  apply Hcodes. apply list_elem_of_further, list_elem_of_here.
Defined.

(** X13.  Regenerating backup codes needs MFA on and the right password,
    and otherwise changes nothing.  When it goes through, the response is
    the fresh codes, the stored list is their hashes and nothing else:
    every fresh code verifies, and a code whose hash is not among the new
    hashes, an old code in particular, is refused. *)
Theorem regenerate_backup_codes_replaces `{Externals} (db db' : Database)
    (password : string) (current_user : User) (fresh_codes : list string)
    (result : py_result (list string)) :
  regenerate_backup_codes db password current_user fresh_codes = (result, db') →
  (∀ e, result = Raise e → db' = db)
  ∧ (∀ body, result = Return body →
       body = fresh_codes
       ∧ mfa_enabled current_user = true
       ∧ verify_password password (hashed_password current_user) = Return true
       ∧ (query_user_by_id db (id current_user) = Some current_user →
          ∃ user',
            query_user_by_id db' (id current_user) = Some user'
            ∧ mfa_backup_codes user'
              = Some (MFAService.hash_backup_code <$> fresh_codes)
            ∧ (∀ c, c ∈ fresh_codes →
                 ∃ db'', MFAService.verify_user_backup_code db' user' c
                         = Return (true, db''))
            ∧ ∀ c, MFAService.hash_backup_code c
                     ∉ MFAService.hash_backup_code <$> fresh_codes →
                   MFAService.verify_user_backup_code db' user' c
                   = Return (false, db'))).
Proof.
  unfold regenerate_backup_codes.
  destruct (mfa_enabled current_user) eqn:Hon; cbn [negb];
    [|intros [= <- <-]; by split].
  destruct (verify_password password (hashed_password current_user)) as [[]|e];
    cbn [negb]; [|intros [= <- <-]; by split..].
  intros [= <- <-]. split; [done|]. intros body [= <-].
  split; [done|]. split; [done|]. split; [done|].
  intros Hrow. eexists. split.
  { apply (query_user_by_id_commit_same db
             (set_mfa_backup_codes current_user
                (Some (MFAService.hash_backup_code <$> fresh_codes)))).
    cbn. by rewrite Hrow. }
  split; [done|]. split.
  - intros c Hc. apply verify_user_backup_code_present; [done|].
    cbn. by apply list_elem_of_fmap_2.
  - intros c Hc. by apply verify_user_backup_code_absent.
Qed.

(** Carol regenerates her codes: a new one works, an old one does not. *)
Lemma regenerate_backup_codes_replaces_witness :
  ∃ db' carol',
    @regenerate_backup_codes sample_externals sample_db "Passw0rd1" carol
      ["CCCC4444"; "DDDD5555"]
    = (Return ["CCCC4444"; "DDDD5555"], db')
    ∧ query_user_by_id db' "u-carol" = Some carol'
    ∧ (∃ db'', @MFAService.verify_user_backup_code sample_externals db' carol' "CCCC4444"
               = Return (true, db''))
    ∧ @MFAService.verify_user_backup_code sample_externals db' carol' "ABCD2345"
      = Return (false, db').
Proof.
  edestruct (@regenerate_backup_codes_replaces sample_externals sample_db _ "Passw0rd1"
               carol ["CCCC4444"; "DDDD5555"] _ eq_refl) as [_ Hok].
  destruct (Hok _ eq_refl) as (_ & _ & _ & Hstate).
  destruct (Hstate eq_refl) as (carol' & Hrow & _ & Hnew & Hold).
  eexists _, carol'. split; [reflexivity|]. split; [exact Hrow|]. split.
  - apply Hnew. apply list_elem_of_here.
  - apply Hold. cbn. intros Hin.
    apply elem_of_cons in Hin as [Heq|Hin]; [discriminate|].
    apply list_elem_of_singleton in Hin. discriminate.
Defined.

(** X14.  Once MFA has been disabled for a user, nothing verifies for
    that user any more: the TOTP check and the backup-code check return
    false for every code, and a verification request naming that user is
    answered 401 and writes nothing. *)
Theorem disabled_mfa_verifies_nothing `{Externals} (settings : Settings)
    (db db1 : Database) (password : string) (user : User) (body : response) :
  query_user_by_id db (id user) = Some user →
  Mfa.disable_mfa db password user = (Return body, db1) →
  ∃ user1,
    query_user_by_id db1 (id user) = Some user1
    ∧ mfa_enabled user1 = false
    ∧ (∀ c t, MFAService.verify_user_totp user1 c t = Return false)
    ∧ (∀ c, MFAService.verify_user_backup_code db1 user1 c = Return (false, db1))
    ∧ ∀ request now payload,
        decode_token settings (temp_token request) now = Return (Some payload) →
        payload !! "user_id" = Some (JStr (id user)) →
        ∃ detail, Mfa.verify_mfa settings db1 request now
                  = (Raise (HTTPException 401 detail), db1).
Proof.
  intros Hrow. unfold Mfa.disable_mfa.
  destruct (mfa_enabled user); cbn [negb]; [|done].
  destruct (verify_password password (hashed_password user)) as [[]|e];
    cbn [negb]; [|done..].
  intros [= _ <-]. unfold MFAService.disable_mfa.
  set (user1 := set_mfa user false None None).
  assert (Hrow1 : query_user_by_id (commit db user1) (id user) = Some user1).
  { apply (query_user_by_id_commit_same db user1). cbn. by rewrite Hrow. }
  exists user1. split; [done|]. split; [done|].
  split; [done|]. split; [done|].
  intros request now payload Hdec Hid.
  unfold Mfa.verify_mfa. rewrite Hdec.
  destruct (size payload =? 0)%nat; [by eexists|].
  unfold payload_get. rewrite Hid. cbn [truthy].
  destruct (negb (negb (String.eqb (id user) ""))); [by eexists|].
  cbn [query_user_by_id_claim]. rewrite Hrow1. by eexists.
Qed.

(** Carol disables MFA; her old backup code and her old TOTP code are
    refused afterwards. *)
Lemma disabled_mfa_verifies_nothing_witness :
  ∃ db1 carol1,
    @Mfa.disable_mfa sample_externals sample_db "Passw0rd1" carol
    = (Return (Message "MFA disabled successfully"), db1)
    ∧ query_user_by_id db1 "u-carol" = Some carol1
    ∧ @MFAService.verify_user_totp sample_externals carol1 "JBSWY3" 1000000000
      = Return false
    ∧ @MFAService.verify_user_backup_code sample_externals db1 carol1 "ABCD2345"
      = Return (false, db1).
Proof.
  edestruct (@disabled_mfa_verifies_nothing sample_externals sample_settings sample_db _
               "Passw0rd1" carol _ eq_refl eq_refl)
    as (carol1 & Hrow & _ & Htotp & Hbackup & _).
  eexists _, carol1. split; [reflexivity|]. split; [exact Hrow|]. split; [apply Htotp | apply Hbackup].
Defined.

(* ===================================================================== *)
(** * Further theorems: password-reset tokens and expiry helpers *)
(* ===================================================================== *)

Lemma minted_truthy (data : claims) issued ttl :
  payload_truthy (Some (minted data issued ttl)) = true.
Proof.
  unfold payload_truthy, minted.
  destruct (size _ =? 0)%nat eqn:Hsize; [|done].
  apply Nat.eqb_eq, map_size_empty_iff in Hsize.
  by apply insert_non_empty in Hsize.
Qed.

Lemma verify_password_reset_token_minted `{Externals} settings (data : claims)
    (e : string) issued ttl now :
  data !! "type" = Some (JStr "password_reset") →
  data !! "sub" = Some (JStr e) →
  Jose.other_claims_ok data now = true →
  timegm now ≤ timegm (issued + ttl) →
  verify_password_reset_token settings
    (Jwt (ALGORITHM settings) (minted data issued ttl) (SECRET_KEY settings)) now
  = Return (Some (JStr e)).
Proof.
  intros Htype Hsub Hok Hle. unfold verify_password_reset_token.
  rewrite decode_token_minted by done.
  cbn [mbind py_bind]. rewrite minted_truthy. cbn [default andb].
  unfold payload_get, minted, Datatypes.id.
  rewrite !(lookup_insert_ne _ "iat") by done.
  rewrite !(lookup_insert_ne _ "exp") by done.
  by rewrite Htype, Hsub.
Qed.

(** X15.  A password-reset token verifies to the email it was generated
    for until the second it expires in, thirty minutes after issue, and to
    nothing afterwards; a token whose claims do not carry the [type]
    "password_reset" (a session, refresh or challenge token) never
    verifies as a reset token. *)
Theorem password_reset_token_round_trip `{Externals} (settings : Settings)
    (email_ : string) (issued now : Z) :
  (timegm now ≤ timegm (issued + timedelta_minutes 30) →
   verify_password_reset_token settings
     (generate_password_reset_token settings email_ issued) now
   = Return (Some (JStr email_)))
  ∧ (timegm (issued + timedelta_minutes 30) < timegm now →
     verify_password_reset_token settings
       (generate_password_reset_token settings email_ issued) now
     = Return None)
  ∧ (∀ t e,
       claim_is_str (token_claims t !! "type") "password_reset" = false →
       verify_password_reset_token settings t now ≠ Return (Some e)).
Proof.
  split; [|split].
  - intros Hle. unfold generate_password_reset_token.
    rewrite create_access_token_claims by done.
    apply verify_password_reset_token_minted;
      [map_lookup | map_lookup
      | eapply (other_claims_ok_sub_only _ email_); map_lookup | done].
  - intros Hlt. unfold verify_password_reset_token, generate_password_reset_token.
    rewrite create_access_token_claims by done.
    rewrite decode_token_minted_expired; [done|done|].
    unfold Jose.int_TypeError. by rewrite lookup_insert_ne, lookup_singleton_ne.
  - intros t e Htype. unfold verify_password_reset_token.
    destruct (decode_token settings t now) as [[payload|]|e'] eqn:Hdec;
      cbn [mbind py_bind]; [|done..].
    apply decode_token_Some_own in Hdec as ->. cbn [token_claims] in Htype.
    cbn [default]. unfold payload_get, Datatypes.id.
    destruct (payload !! "type") as [[| | |s|]|]; cbn [claim_is_str] in *;
      rewrite ?Htype, ?andb_false_r; done.
Qed.

(** Alice's reset token just before and just after its expiry, and her
    session token presented as a reset token. *)
Lemma password_reset_token_round_trip_witness :
  verify_password_reset_token (H := sample_externals) sample_settings
    (generate_password_reset_token sample_settings "alice@x.com" 1000000000) 2800000000
  = Return (Some (JStr "alice@x.com"))
  ∧ verify_password_reset_token (H := sample_externals) sample_settings
      (generate_password_reset_token sample_settings "alice@x.com" 1000000000) 2801000000
    = Return None
  ∧ verify_password_reset_token (H := sample_externals) sample_settings
      (create_access_token sample_settings {["sub" := JStr "alice@x.com"]} None 1000000000)
      1000000000
    ≠ Return (Some (JStr "alice@x.com")).
Proof.
  split; [|split].
  - apply (proj1 (@password_reset_token_round_trip sample_externals sample_settings
                    "alice@x.com" 1000000000 2800000000)). by vm_compute.
  - apply (proj1 (proj2 (@password_reset_token_round_trip sample_externals
                           sample_settings "alice@x.com" 1000000000 2801000000))).
    reflexivity.
  - apply (proj2 (proj2 (@password_reset_token_round_trip sample_externals
                           sample_settings "alice@x.com" 1000000000 1000000000))).
    reflexivity.
Defined.

(** X16.  [is_token_expired] answers true for every token that does not
    decode.  For a token that decodes it compares the clock, which is UTC,
    with [exp] read as local time: a minted token is reported expired
    exactly when [exp] in microseconds plus the process's UTC offset is
    before the clock. *)
Theorem is_token_expired_reads_local_time `{Externals} (settings : Settings)
    (utcoffset : Z) (now : Z) :
  (∀ t, decode_token settings t now = Return None →
        is_token_expired settings utcoffset t now = Return true)
  ∧ (∀ data issued ttl,
       ttl ≠ 0 →
       timegm now ≤ timegm (issued + ttl) →
       Jose.other_claims_ok data now = true →
       is_token_expired settings utcoffset
         (create_access_token settings data (Some ttl) issued) now
       = Return (timegm (issued + ttl) * 1000000 + utcoffset <? now)).
Proof.
  split.
  - intros t Hdec. unfold is_token_expired, get_token_expiration.
    by rewrite Hdec.
  - intros data issued ttl Httl Hle Hok.
    unfold is_token_expired, get_token_expiration.
    rewrite create_access_token_claims by done.
    rewrite decode_token_minted by done.
    cbn [mbind py_bind]. rewrite minted_truthy. cbn [default].
    unfold minted, Datatypes.id. rewrite lookup_insert_ne, lookup_insert_eq by done.
    done.
Qed.

(** A five-minute token for Alice, looked at one second after issue: not
    expired in a process on UTC, reported expired in a process five hours
    west of it. *)
Lemma is_token_expired_reads_local_time_witness :
  let t := create_access_token sample_settings {["sub" := JStr "alice@x.com"]}
             (Some 300000000) 1000000000 in
  is_token_expired (H := sample_externals) sample_settings 0 t 1001000000 = Return false
  ∧ is_token_expired (H := sample_externals) sample_settings (- timedelta_hours 5) t
      1001000000
    = Return true
  ∧ is_token_expired (H := sample_externals) sample_settings 0 (Malformed "garbage")
      1001000000
    = Return true.
Proof.
  intros t. split; [|split].
  - refine (proj2 (@is_token_expired_reads_local_time sample_externals sample_settings 0 1001000000)
              {["sub" := JStr "alice@x.com"]} 1000000000 300000000 _ _ _);
      [discriminate | by vm_compute | reflexivity].
  - refine (proj2 (@is_token_expired_reads_local_time sample_externals sample_settings
                     (- timedelta_hours 5) 1001000000)
              {["sub" := JStr "alice@x.com"]} 1000000000 300000000 _ _ _);
      [discriminate | by vm_compute | reflexivity].
  - apply (proj1 (@is_token_expired_reads_local_time sample_externals sample_settings 0 1001000000)).
    reflexivity.
Defined.

(* ===================================================================== *)
(** * Further theorems: email verification and password reset *)
(* ===================================================================== *)

Lemma replace_user_ids (us : list User) (u : User) :
  id <$> replace_user us u = id <$> us.
Proof.
  induction us as [|v us IH]; cbn; [done|].
  destruct (String.eqb (id v) (id u)) eqn:Hv; cbn.
  - apply String.eqb_eq in Hv. by rewrite Hv.
  - by rewrite IH.
Qed.

Lemma find_None_all {A : Type} (f : A → bool) (l : list A) :
  (∀ x, x ∈ l → f x = false) → List.find f l = None.
Proof.
  induction l as [|y l IH]; cbn; [done|]. intros Hall.
  rewrite (Hall y) by apply list_elem_of_here.
  apply IH. intros x Hx. by apply Hall, list_elem_of_further.
Qed.

(** After the row of [u] is rewritten so that it fails [f], no row
    passes [f], provided the rows that passed were rows of [u]. *)
Lemma find_replace_user_None (f : User → bool) (us : list User) (u : User) :
  NoDup (id <$> us) →
  f u = false →
  (∀ v, v ∈ us → f v = true → id v = id u) →
  List.find f (replace_user us u) = None.
Proof.
  intros Hnd Hu Hall. apply find_None_all. intros v Hv.
  destruct (f v) eqn:Hfv; [|done]. exfalso.
  induction us as [|w us IH]; cbn in Hv; [by apply elem_of_nil in Hv|].
  apply NoDup_cons in Hnd as [Hw Hnd].
  destruct (String.eqb (id w) (id u)) eqn:Hwu.
  - apply String.eqb_eq in Hwu.
    apply elem_of_cons in Hv as [->|Hv]; [congruence|].
    apply Hw. rewrite Hwu.
    rewrite <- (Hall v (list_elem_of_further _ _ _ Hv) Hfv).
    by apply list_elem_of_fmap_2.
  - apply elem_of_cons in Hv as [->|Hv].
    + apply String.eqb_neq in Hwu. apply Hwu, Hall; [apply list_elem_of_here | done].
    + apply IH; [done| |done]. intros x Hx. by apply Hall, list_elem_of_further.
Qed.

Lemma query_user_by_id_is_Some db u :
  u ∈ users db → is_Some (query_user_by_id db (id u)).
Proof.
  unfold query_user_by_id. induction (users db) as [|v us IH]; cbn.
  { by intros ?%elem_of_nil. }
  intros [->|Hin]%elem_of_cons.
  - rewrite String.eqb_refl. by eexists.
  - destruct (String.eqb (id v) (id u)); [by eexists | by apply IH].
Qed.

(** X17.  A verification link works once.  For an unverified account
    whose link has not expired, the endpoint marks the email verified and
    clears the token; after that (the token having named this account
    only, primary keys being unique) the same token is refused as
    invalid, whatever the time. *)
Theorem verify_email_single_use (db : Database) (tok : string) (now : Z)
    (user : User) :
  NoDup (id <$> users db) →
  query_user_by_verification_token db tok = Some user →
  email_verified user = false →
  EmailService.is_token_valid (verification_token_expires user) now = true →
  (∀ v, v ∈ users db → verification_token v = Some tok → id v = id user) →
  ∃ db1 user1,
    verify_email db tok now
    = (Return (Message "Email verified successfully. You can now login"), db1)
    ∧ query_user_by_id db1 (id user) = Some user1
    ∧ email_verified user1 = true
    ∧ verification_token user1 = None
    ∧ ∀ now', verify_email db1 tok now'
              = (Raise (HTTPException 400 "Invalid or expired verification token"), db1).
Proof.
  intros Hnd Hq Hunv Hvalid Honly.
  set (user1 := set_verification (set_email_verified user true) None None).
  exists (commit db user1), user1.
  unfold verify_email at 1. rewrite Hq, Hunv, Hvalid. cbn [negb].
  split; [done|].
  assert (Hin : user ∈ users db).
  { unfold query_user_by_verification_token in Hq.
    by apply find_Some_holds in Hq as [_ ?]. }
  split.
  { apply (query_user_by_id_commit_same db user1).
    by apply (query_user_by_id_is_Some db user). }
  split; [done|]. split; [done|].
  intros now'. unfold verify_email, query_user_by_verification_token, commit.
  cbn [users]. rewrite find_replace_user_None; [done|done|done|].
  intros v Hv Htok. apply Honly; [done|]. by apply bool_decide_eq_true in Htok.
Qed.

(** Dave follows his verification link, twice. *)
Lemma verify_email_single_use_witness :
  ∃ db1 dave1,
    verify_email sample_db "tok-0" 1000000000
    = (Return (Message "Email verified successfully. You can now login"), db1)
    ∧ query_user_by_id db1 "u-dave" = Some dave1
    ∧ email_verified dave1 = true
    ∧ verification_token dave1 = None
    ∧ ∀ now', verify_email db1 "tok-0" now'
              = (Raise (HTTPException 400 "Invalid or expired verification token"), db1).
Proof.
  apply (verify_email_single_use sample_db "tok-0" 1000000000 dave).
  - by apply (bool_decide_unpack _).
  - reflexivity.
  - reflexivity.
  - reflexivity.
  - intros v Hv Htok. cbn in Hv.
    repeat (apply elem_of_cons in Hv as [->|Hv]; [try discriminate Htok; try done|]).
    by apply elem_of_nil in Hv.
Defined.

Lemma elem_of_replace_user (us : list User) (u v : User) :
  v ∈ replace_user us u → v ∈ us ∨ v = u.
Proof.
  induction us as [|w us IH]; cbn; [by intros ?%elem_of_nil|].
  destruct (String.eqb (id w) (id u)).
  - intros [->|Hin]%elem_of_cons; [by right | left; by apply list_elem_of_further].
  - intros [->|Hin]%elem_of_cons; [left; apply list_elem_of_here|].
    destruct (IH Hin) as [?|?]; [left; by apply list_elem_of_further | by right].
Qed.

(** A row rewritten so that it passes [f] is the row [f] finds, when no
    row passed before. *)
Lemma find_replace_user_Some (f : User → bool) (us : list User) (u : User) :
  f u = true →
  (∀ v, v ∈ us → f v = false) →
  (∃ v, v ∈ us ∧ id v = id u) →
  List.find f (replace_user us u) = Some u.
Proof.
  intros Hu Hall. induction us as [|w us IH]; cbn.
  { by intros (v & ?%elem_of_nil & _). }
  intros (v & Hv & Hid).
  destruct (String.eqb (id w) (id u)) eqn:Hwu; cbn.
  - by rewrite Hu.
  - rewrite (Hall w) by apply list_elem_of_here.
    apply IH.
    + intros x Hx. by apply Hall, list_elem_of_further.
    + apply elem_of_cons in Hv as [->|Hv]; [|by exists v].
      apply String.eqb_neq in Hwu. done.
Qed.

(** Rows are told apart by their primary key. *)
Lemma user_row_unique (us : list User) (u v : User) :
  NoDup (id <$> us) → u ∈ us → v ∈ us → id u = id v → u = v.
Proof.
  induction us as [|w us IH]; [by intros _ ?%elem_of_nil|].
  cbn. intros [Hw Hnd]%NoDup_cons Hu Hv Hid.
  apply elem_of_cons in Hu as [->|Hu]; apply elem_of_cons in Hv as [->|Hv].
  - done.
  - exfalso. apply Hw. rewrite Hid. by apply list_elem_of_fmap_2.
  - exfalso. apply Hw. rewrite <- Hid. by apply list_elem_of_fmap_2.
  - by apply IH.
Qed.

Lemma query_user_by_id_remove_other db u i :
  id u ≠ i → query_user_by_id (delete_user_row db u) i = query_user_by_id db i.
Proof.
  intros Hne. unfold query_user_by_id, delete_user_row. cbn [users].
  induction (users db) as [|v us IH]; cbn; [done|].
  destruct (String.eqb (id v) (id u)) eqn:Hv; cbn.
  - apply String.eqb_eq in Hv.
    by rewrite Hv, (proj2 (String.eqb_neq (id u) i) Hne).
  - by rewrite IH.
Qed.

Lemma get_current_user_Return_row `{Externals} settings db credentials now user :
  get_current_user settings db credentials now = Return user →
  is_active user = true ∧ user ∈ users db.
Proof.
  unfold get_current_user.
  destruct (decode_token settings credentials now) as [[payload|]|e]; cbn; [|done|done].
  destruct (payload_get payload "sub") as [[| | |e|]|]; cbn; try done.
  destruct (query_user_by_email db e) as [u|] eqn:Hq; [|done].
  destruct (is_active u) eqn:Hact; cbn; [|done].
  intros [= <-]. split; [done|].
  unfold query_user_by_email in Hq. by apply find_Some_holds in Hq as [_ Hin].
Qed.

(** X18.  A reset link works once, for an hour.  After forgot_password
    has stored a fresh token for a verified account, reset_password with
    that token within the hour stores the hash of the new password and
    clears the token, so that every later use of the token is refused as
    invalid; from the hour on, the first use is refused as expired, the
    password is kept and the token is cleared all the same. *)
Theorem reset_password_single_use `{Externals} (hashpw : string → string → string)
    (db : Database) (request_email fresh new_password salt : string) (now now' : Z)
    (user : User) :
  NoDup (id <$> users db) →
  query_user_by_email db request_email = Some user →
  email_verified user = true →
  send_password_reset_email (email user) fresh = Return tt →
  (∀ v, v ∈ users db → reset_token v ≠ Some fresh) →
  ∃ db1,
    Auth.forgot_password db request_email fresh now
    = (Return (Message "If that email exists, a reset link has been sent"), db1)
    ∧ (now' < now + timedelta_hours 1 →
       ∃ db2 user2,
         reset_password hashpw db1 fresh new_password salt now'
         = (Return (Message "Password reset successful"), db2)
         ∧ query_user_by_id db2 (id user) = Some user2
         ∧ hashed_password user2 = hashpw new_password salt
         ∧ reset_token user2 = None
         ∧ ∀ pw s t, reset_password hashpw db2 fresh pw s t
                     = (Raise (HTTPException 400 "Invalid or expired reset token"), db2))
    ∧ (now + timedelta_hours 1 ≤ now' →
       ∃ db2 user2,
         reset_password hashpw db1 fresh new_password salt now'
         = (Raise (HTTPException 400
                     "Reset token has expired. Please request a new one"), db2)
         ∧ query_user_by_id db2 (id user) = Some user2
         ∧ hashed_password user2 = hashed_password user
         ∧ reset_token user2 = None).
Proof.
  intros Hnd Hq Hver Hmail Hfresh.
  set (user1 := set_reset user (Some fresh) (Some (now + timedelta_hours 1))).
  exists (commit db user1).
  assert (Hin : user ∈ users db).
  { unfold query_user_by_email in Hq. by apply find_Some_holds in Hq as [_ ?]. }
  assert (Hq1 : query_user_by_reset_token (commit db user1) fresh = Some user1).
  { unfold query_user_by_reset_token, commit. cbn [users].
    apply find_replace_user_Some.
    - by apply bool_decide_eq_true.
    - intros v Hv. apply bool_decide_eq_false. by apply Hfresh.
    - by exists user. }
  assert (Hid1 : is_Some (query_user_by_id (commit db user1) (id user))).
  { change (id user) with (id user1). rewrite query_user_by_id_commit_same; [done|].
    by apply (query_user_by_id_is_Some db user). }
  split.
  { unfold Auth.forgot_password. rewrite Hq, Hver. cbn [negb].
    change (email (set_reset user (Some fresh) (Some (now + timedelta_hours 1))))
      with (email user).
    by rewrite Hmail. }
  split.
  - intros Hlt.
    set (user2 := set_reset (set_hashed_password user1 (hashpw new_password salt))
                    None None).
    exists (commit (commit db user1) user2), user2.
    split.
    { unfold reset_password at 1. rewrite Hq1.
      cbn [user1 reset_token_expires set_reset EmailService.is_token_valid].
      by rewrite (proj2 (Z.ltb_lt _ _) Hlt). }
    split; [by apply (query_user_by_id_commit_same (commit db user1) user2)|].
    split; [done|]. split; [done|].
    intros pw s t. unfold reset_password, query_user_by_reset_token.
    cbn [commit users]. rewrite find_replace_user_None; [done| | |].
    + by rewrite replace_user_ids.
    + by apply bool_decide_eq_false.
    + intros v [Hv| ->]%elem_of_replace_user Htok; [|done].
      apply bool_decide_eq_true in Htok. by destruct (Hfresh v Hv).
  - intros Hge.
    set (user2 := set_reset user1 None None).
    exists (commit (commit db user1) user2), user2.
    split.
    { unfold reset_password at 1. rewrite Hq1.
      cbn [user1 reset_token_expires set_reset EmailService.is_token_valid].
      by rewrite (proj2 (Z.ltb_ge _ _) Hge). }
    split; [by apply (query_user_by_id_commit_same (commit db user1) user2)|].
    done.
Qed.

(** Alice asks for a reset link and uses it half an hour later. *)
Lemma reset_password_single_use_witness :
  ∃ db1 db2 alice2,
    Auth.forgot_password (H := sample_externals) sample_db "alice@x.com" "rst-1" 1000000000
    = (Return (Message "If that email exists, a reset link has been sent"), db1)
    ∧ reset_password (fun pw _ => "$2b$" +:+ pw) db1 "rst-1" "N3wPassw0rd" "salt"
        2800000000
      = (Return (Message "Password reset successful"), db2)
    ∧ query_user_by_id db2 "u-alice" = Some alice2
    ∧ hashed_password alice2 = "$2b$N3wPassw0rd".
Proof.
  edestruct (@reset_password_single_use sample_externals (fun pw _ => "$2b$" +:+ pw)
               sample_db "alice@x.com" "rst-1" "N3wPassw0rd" "salt"
               1000000000 2800000000 alice) as (db1 & Hforgot & Hok & _).
  - by apply (bool_decide_unpack _).
  - reflexivity.
  - reflexivity.
  - reflexivity.
  - intros v Hv. cbn in Hv.
    repeat (apply elem_of_cons in Hv as [->|Hv]; [done|]).
    by apply elem_of_nil in Hv.
  - edestruct Hok as (db2 & alice2 & Hreset & Hq2 & Hhash & _); [reflexivity|].
    exists db1, db2, alice2. by repeat split.
Defined.

(** X19.  Resending the verification email replaces the link.  The fresh
    token verifies the account for twenty-four hours; the token of the
    earlier email (which named this account only) is refused from then
    on. *)
Theorem resend_verification_replaces_link `{Externals} (db : Database)
    (request_email fresh : string) (now : Z) (user : User) :
  NoDup (id <$> users db) →
  query_user_by_email db request_email = Some user →
  email_verified user = false →
  send_verification_email (email user) fresh = Return tt →
  (∀ v, v ∈ users db → verification_token v ≠ Some fresh) →
  ∃ db1,
    Auth.resend_verification db request_email fresh now
    = (Return (Message "If that email exists, a verification link has been sent"), db1)
    ∧ (∀ now', now' < now + timedelta_hours 24 →
       ∃ db2 user2,
         verify_email db1 fresh now'
         = (Return (Message "Email verified successfully. You can now login"), db2)
         ∧ query_user_by_id db2 (id user) = Some user2
         ∧ email_verified user2 = true)
    ∧ (∀ old now',
         verification_token user = Some old →
         (∀ v, v ∈ users db → verification_token v = Some old → id v = id user) →
         verify_email db1 old now'
         = (Raise (HTTPException 400 "Invalid or expired verification token"), db1)).
Proof.
  intros Hnd Hq Hunv Hmail Hfresh.
  set (user1 := set_verification user (Some fresh) (Some (now + timedelta_hours 24))).
  exists (commit db user1).
  assert (Hin : user ∈ users db).
  { unfold query_user_by_email in Hq. by apply find_Some_holds in Hq as [_ ?]. }
  split.
  { unfold Auth.resend_verification. rewrite Hq, Hunv.
    change (email (set_verification user (Some fresh) (Some (now + timedelta_hours 24))))
      with (email user).
    by rewrite Hmail. }
  split.
  - intros now' Hlt.
    set (user2 := set_verification (set_email_verified user1 true) None None).
    exists (commit (commit db user1) user2), user2.
    assert (Hq1 : query_user_by_verification_token (commit db user1) fresh = Some user1).
    { unfold query_user_by_verification_token, commit. cbn [users].
      apply find_replace_user_Some.
      - by apply bool_decide_eq_true.
      - intros v Hv. apply bool_decide_eq_false. by apply Hfresh.
      - by exists user. }
    split.
    { unfold verify_email. rewrite Hq1.
      cbn [user1 email_verified verification_token_expires set_verification
           EmailService.is_token_valid].
      by rewrite Hunv, (proj2 (Z.ltb_lt _ _) Hlt). }
    split; [|done].
    apply (query_user_by_id_commit_same (commit db user1) user2).
    change (id user2) with (id user1). rewrite query_user_by_id_commit_same; [done|].
    by apply (query_user_by_id_is_Some db user).
  - intros old now' Hold Honly.
    unfold verify_email, query_user_by_verification_token.
    cbn [commit users]. rewrite find_replace_user_None; [done|done| |].
    + apply bool_decide_eq_false. cbn. intros [= <-]. by destruct (Hfresh user Hin).
    + intros v Hv Htok. apply bool_decide_eq_true in Htok. by apply Honly.
Qed.

(** Dave asks for a second verification email; the first link is dead. *)
Lemma resend_verification_replaces_link_witness :
  ∃ db1,
    Auth.resend_verification (H := sample_externals) sample_db "dave@x.com" "tok-1"
      1000000000
    = (Return (Message "If that email exists, a verification link has been sent"), db1)
    ∧ ∀ now', verify_email db1 "tok-0" now'
              = (Raise (HTTPException 400 "Invalid or expired verification token"), db1).
Proof.
  edestruct (@resend_verification_replaces_link sample_externals sample_db
               "dave@x.com" "tok-1" 1000000000 dave) as (db1 & Hresend & _ & Hold).
  - by apply (bool_decide_unpack _).
  - reflexivity.
  - reflexivity.
  - reflexivity.
  - intros v Hv. cbn in Hv.
    repeat (apply elem_of_cons in Hv as [->|Hv]; [done|]).
    by apply elem_of_nil in Hv.
  - exists db1. split; [exact Hresend|].
    intros now'. apply Hold; [reflexivity|].
    intros v Hv Htok. cbn in Hv.
    repeat (apply elem_of_cons in Hv as [->|Hv]; [try discriminate Htok; try done|]).
    by apply elem_of_nil in Hv.
Defined.

(* ===================================================================== *)
(** * Further theorems: user management ([api/v1/users.py]) *)
(* ===================================================================== *)

(** X20.  Deactivation locks the account out.  When toggle_user_status
    with is_active = False succeeds, the row is another user's than the
    caller's; from then on get_current_user returns that account for no
    token, and for every email that resolves to the row, login succeeds
    with no password and refresh_token answers 401 to every token that
    decodes to that subject.  Primary keys are taken as unique. *)
Theorem deactivated_user_is_locked_out `{Externals} (settings : Settings)
    (db db1 : Database) (user_id : string) (current_user updated : User) :
  NoDup (id <$> users db) →
  Users.toggle_user_status db user_id false current_user = (Return updated, db1) →
  user_id ≠ id current_user
  ∧ query_user_by_id db1 user_id = Some updated
  ∧ is_active updated = false
  ∧ (∀ t now u, get_current_user settings db1 t now = Return u → id u ≠ user_id)
  ∧ (∀ e u, query_user_by_email db1 e = Some u → id u = user_id →
       (∀ pw now resp,
          Auth.login settings db1 {| login_email := e; login_password := pw |} now
          ≠ Return resp)
       ∧ (∀ t now payload,
            decode_token settings t now = Return (Some payload) →
            payload !! "sub" = Some (JStr e) →
            Auth.refresh_token settings db1 t now
            = Raise (HTTPException 401 "User not found or inactive"))).
Proof.
  intros Hnd. unfold Users.toggle_user_status. rewrite andb_true_r.
  destruct (String.eqb user_id (id current_user)) eqn:Hself; [done|].
  apply String.eqb_neq in Hself.
  destruct (query_user_by_id db user_id) as [user|] eqn:Hq; [|done].
  intros [= <- <-].
  pose proof (query_user_by_id_Some _ _ _ Hq) as Hid.
  set (updated := set_is_active user false).
  assert (Hq1 : query_user_by_id (commit db updated) user_id = Some updated).
  { rewrite <- Hid. apply (query_user_by_id_commit_same db updated).
    change (id updated) with (id user). rewrite Hid, Hq. by eexists. }
  assert (Hrow : ∀ u, u ∈ users (commit db updated) → id u = user_id →
                      is_active u = false).
  { intros u Hu Hidu.
    assert (u = updated) as ->; [|done].
    apply (user_row_unique (users (commit db updated))).
    - cbn [commit users]. by rewrite replace_user_ids.
    - done.
    - unfold query_user_by_id in Hq1. by apply find_Some_holds in Hq1 as [_ ?].
    - by rewrite Hidu. }
  split; [done|]. split; [done|]. split; [done|].
  remember (commit db updated) as db1 eqn:Hdb1 in *. clear Hdb1.
  split.
  - intros t now u [Hact Hu]%get_current_user_Return_row Hidu.
    rewrite (Hrow u Hu Hidu) in Hact. done.
  - intros e u Hqe Hidu.
    assert (Hinact : is_active u = false).
    { apply Hrow; [|done]. unfold query_user_by_email in Hqe.
      by apply find_Some_holds in Hqe as [_ ?]. }
    split.
    + intros pw now resp Hlogin.
      apply login_Return in Hlogin as (u' & Hq' & _ & Hact & _).
      cbn [login_email] in Hq'. rewrite Hqe in Hq'. injection Hq' as <-.
      rewrite Hinact in Hact. done.
    + intros t now payload Hdec Hsub. unfold Auth.refresh_token.
      rewrite Hdec. cbn. unfold payload_get. rewrite Hsub. cbn.
      by rewrite Hqe, Hinact.
Qed.

(** Bob, an administrator, deactivates Alice. *)
Lemma deactivated_user_is_locked_out_witness :
  is_active (set_is_active alice false) = false
  ∧ ∀ t now u,
      get_current_user (H := sample_externals) sample_settings (commit sample_db (set_is_active alice false)) t now
      = Return u →
      id u ≠ "u-alice".
Proof.
  destruct (@deactivated_user_is_locked_out sample_externals sample_settings sample_db
              (commit sample_db (set_is_active alice false)) "u-alice" bob
              (set_is_active alice false)) as (_ & _ & Hoff & Hcur & _).
  - by apply (bool_decide_unpack _).
  - reflexivity.
  - split; [exact Hoff | exact Hcur].
Defined.

(** X21.  An administrator cannot lose their own account through these
    two endpoints: whatever the target and the flag, after delete_user
    the caller's row is as it was, and after toggle_user_status the
    caller's row is still there and active. *)
Theorem admin_keeps_own_account (db : Database) (current_user : User)
    (user_id : string) (active : bool) :
  query_user_by_id db (id current_user) = Some current_user →
  is_active current_user = true →
  query_user_by_id (Users.delete_user db user_id current_user).2 (id current_user)
  = Some current_user
  ∧ ∃ u, query_user_by_id (Users.toggle_user_status db user_id active current_user).2
           (id current_user) = Some u
         ∧ is_active u = true.
Proof.
  intros Hq Hact. split.
  - unfold Users.delete_user.
    destruct (String.eqb user_id (id current_user)) eqn:Hself; [done|].
    apply String.eqb_neq in Hself.
    destruct (query_user_by_id db user_id) as [user|] eqn:Hqu; [|done].
    cbn [snd]. rewrite query_user_by_id_remove_other; [done|].
    by rewrite (query_user_by_id_Some _ _ _ Hqu).
  - unfold Users.toggle_user_status.
    destruct (String.eqb user_id (id current_user)) eqn:Hself.
    + apply String.eqb_eq in Hself. subst user_id.
      destruct active; cbn [andb negb snd]; [|by exists current_user].
      rewrite Hq. cbn [snd].
      exists (set_is_active current_user true). split; [|done].
      apply (query_user_by_id_commit_same db (set_is_active current_user true)).
      cbn. rewrite Hq. by eexists.
    + apply String.eqb_neq in Hself. cbn [andb].
      destruct (query_user_by_id db user_id) as [user|] eqn:Hqu;
        [|by exists current_user].
      cbn [snd]. exists current_user. split; [|done].
      rewrite query_user_by_id_commit_other; [done|].
      cbn. by rewrite (query_user_by_id_Some _ _ _ Hqu).
Qed.

(** Bob tries to deactivate himself. *)
Lemma admin_keeps_own_account_witness :
  query_user_by_id (Users.delete_user sample_db "u-bob" bob).2 "u-bob" = Some bob
  ∧ ∃ u, query_user_by_id (Users.toggle_user_status sample_db "u-bob" false bob).2 "u-bob"
         = Some u
         ∧ is_active u = true.
Proof.
  apply (admin_keeps_own_account sample_db bob "u-bob" false); reflexivity.
Defined.
